(** * singularity pull: the dispatch and resolution core

    A shallow embedding of [pullRun] from [cmd/internal/cli/pull.go] and the
    properties of it that the design document of the command states.

    [pullRun] is one long function that calls collaborators living in other
    packages (the cache, the uri helpers, the five backends, the logger).  The
    embedding keeps the function as it is written, statement by statement, in
    a small monad that records every call to a collaborator and stops at the
    first [sylog.Fatalf].  The collaborators themselves are the fields of a
    record [Env]; the package-level option variables are the fields of a
    record [Flags]. *)

From Stdlib Require Import String Ascii List Bool Arith Lia.
Import ListNotations.
Open Scope string_scope.

Set Implicit Arguments.

(** ** Constants (pull.go, lines 28-43) *)

Definition LibraryProtocol : string := "library".
Definition ShubProtocol : string := "shub".
Definition HTTPProtocol : string := "http".
Definition HTTPSProtocol : string := "https".
Definition OrasProtocol : string := "oras".
Definition DockerProtocol : string := "docker".

(** The line feed that ends two of the format strings. *)
Definition nl : string := String (ascii_of_nat 10) EmptyString.

(** [Args: cobra.RangeArgs(1, 2)] (line 177): cobra calls [Run] only with
    one or two positional arguments. *)
Definition RangeArgs (lo hi : nat) (args : list string) : bool :=
  Nat.leb lo (List.length args) && Nat.leb (List.length args) hi.

(** ** Go values used by the function *)

(** Go's [error] interface.  [pullRun] compares an error with the sentinel
    [library.ErrLibraryPullUnsigned] by identity and otherwise only prints it,
    so an error is either that sentinel or some other value with a text. *)
Inductive error : Type :=
| ErrLibraryPullUnsigned
| errorString (msg : string).

(** [err == library.ErrLibraryPullUnsigned] *)
Definition isErrLibraryPullUnsigned (e : error) : bool :=
  match e with
  | ErrLibraryPullUnsigned => true
  | errorString _ => false
  end.

(** The error half of what [os.Stat] returns: [None] is Go's [nil]. *)
Inductive oserror : Type :=
| ErrNotExist
| ErrPermission
| ErrOther (msg : string).

(** [os.IsNotExist]; it is false on [nil]. *)
Definition IsNotExist (err : option oserror) : bool :=
  match err with
  | Some ErrNotExist => true
  | _ => false
  end.

(** The operation constant handed to [getKeyserverClientOpts]. *)
Inductive KeyserverOp : Type :=
| KeyserverVerifyOp.

Module library.

(** Modelled from the spec: the type [library.Ref] is declared outside
    pull.go; the normalizer parses the reference body into host, path and
    tag components, and [pullRun] reads the host only. *)
Record Ref : Type := mkRef
  { Host : string;
    Path : string;
    Tags : list string }.

(** [library.PullOptions] as the composite literal of lines 255-262
    fills it. *)
Record PullOptions (Endpoint KeyOpts LibConfig : Type) : Type := mkPullOptions
  { Architecture : string;
    Endpoint_ : Endpoint;
    KeyClientOpts : KeyOpts;
    LibraryConfig : LibConfig;
    RequireOciSif : bool;
    TmpDir : string }.

End library.

Module oci.

(** [oci.PullOptions] as the composite literal of lines 296-303 fills it. *)
Record PullOptions (Auth : Type) : Type := mkPullOptions
  { TmpDir : string;
    OciAuth : Auth;
    DockerHost : string;
    NoHTTPS : bool;
    NoCleanUp : bool;
    OciSif : bool }.

End oci.

(** ** The run monad: a log of calls and an early exit *)

(** How a run ends: it returns, [sylog.Fatalf] ends the process with a
    message, or indexing [args] out of range panics. *)
Inductive Result (A : Type) : Type :=
| Return (a : A)
| Fatal (msg : string)
| Panic.

Arguments Fatal {A} msg.
Arguments Panic {A}.

Section Model.

(** Opaque values that only travel through [pullRun]. *)
Context {Cmd Ctx Handle Endpoint LibConfig KeyOpts Auth : Type}.

(** Every call [pullRun] makes outside its own body, with its arguments. *)
Inductive Event : Type :=
| CmdContext (cmd : Cmd)
| GetCacheHandle (disable : bool)
| UriSplit (uri : string)
| UriGetName (uri : string)
| FilepathJoin (dir name : string)
| OsStat (path : string)
| NormalizeLibraryRef (uri : string)
| GetLibraryClientConfig (uri : string)
| GetKeyserverClientOpts (uri : string) (op : KeyserverOp)
| MakeDockerCredentials (cmd : Cmd)
| OciIsSupported (transport : string)
| LibraryPullToFile (ctx : Ctx) (imgCache : Handle) (pullTo : string)
    (ref : library.Ref)
    (opts : library.PullOptions Endpoint KeyOpts LibConfig)
| ShubPullToFile (ctx : Ctx) (imgCache : Handle) (pullTo pullFrom : string)
    (tmpDir : string) (noHTTPS : bool)
| OrasPullToFile (ctx : Ctx) (imgCache : Handle) (pullTo pullFrom : string)
    (tmpDir : string) (ociAuth : Auth)
| NetPullToFile (ctx : Ctx) (imgCache : Handle) (pullTo pullFrom : string)
    (tmpDir : string)
| OciPullToFile (ctx : Ctx) (imgCache : Handle) (pullTo pullFrom : string)
    (opts : oci.PullOptions Auth)
| Warningf (msg : string).

Definition M (A : Type) : Type := (list Event * Result A)%type.

Definition ret {A : Type} (a : A) : M A := ([], Return a).

Definition bind {A B : Type} (m : M A) (k : A -> M B) : M B :=
  match m with
  | (t, Return a) => let (t', r) := k a in ((t ++ t')%list, r)
  | (t, Fatal msg) => (t, Fatal msg)
  | (t, Panic) => (t, Panic)
  end.

(** A call to a collaborator: log it, hand back what it returned. *)
Definition call {A : Type} (e : Event) (a : A) : M A := ([e], Return a).

(** [sylog.Fatalf]: the process ends here. *)
Definition fatalf {A : Type} (msg : string) : M A := ([], Fatal msg).

(** [sylog.Warningf]: the message is printed and the run goes on. *)
Definition warningf (msg : string) : M unit := ([Warningf msg], Return tt).

(** [args[i]]: Go panics when [i] is out of range. *)
Definition index (args : list string) (i : nat) : M string :=
  match nth_error args i with
  | Some a => ret a
  | None => ([], Panic)
  end.

(** The collaborators.  Each one is a function of the arguments [pullRun]
    passes to it. *)
Record Env : Type := mkEnv
  { cmd_Context : Cmd -> Ctx;
    getCacheHandle : bool -> option Handle;
    uri_Split : string -> string * string;
    uri_GetName : string -> string;
    filepath_Join : string -> string -> string;
    os_Stat : string -> option oserror;
    library_NormalizeLibraryRef : string -> library.Ref + error;
    getLibraryClientConfig : string -> LibConfig + error;
    getKeyserverClientOpts : string -> KeyserverOp -> KeyOpts + error;
    makeDockerCredentials : Cmd -> Auth + error;
    oci_IsSupported : string -> string;
    library_PullToFile :
      Ctx -> Handle -> string -> library.Ref ->
      library.PullOptions Endpoint KeyOpts LibConfig -> option error;
    shub_PullToFile :
      Ctx -> Handle -> string -> string -> string -> bool -> option error;
    oras_PullToFile :
      Ctx -> Handle -> string -> string -> string -> Auth -> option error;
    net_PullToFile :
      Ctx -> Handle -> string -> string -> string -> option error;
    oci_PullToFile :
      Ctx -> Handle -> string -> string -> oci.PullOptions Auth ->
      option error;
    (** [err.Error()], which the verbs [%v] and [%s] print *)
    Error : error -> string;
    (** the verb [%q] on a string *)
    Quote : string -> string }.

(** The package-level variables [pullRun] can see: those of lines 45-60 and
    the ones the other commands of the package share with it. *)
Record Flags : Type := mkFlags
  { pullLibraryURI : string;
    pullImageName : string;
    unauthenticatedPull : bool;
    pullDir : string;
    pullArch : string;
    pullOci : bool;
    disableCache : bool;
    forceOverwrite : bool;
    noHTTPS : bool;
    tmpDir : string;
    dockerHost : string;
    noCleanUp : bool;
    currentRemoteEndpoint : Endpoint }.


Declare Scope run_scope.
Delimit Scope run_scope with run.
Notation "x <- m ;; k" := (bind m (fun x => k))
  (at level 61, m at next level, right associativity) : run_scope.
Notation "m ;;; k" := (bind m (fun _ => k))
  (at level 61, right associativity) : run_scope.
Local Open Scope run_scope.

Variable w : Env.
Variable f : Flags.

(** ** Destination resolution (pull.go, lines 199-213)

    The statements that compute [pullTo], from [pullTo := pullImageName]
    to the join under [pullDir]. *)
Definition resolveDestination (args : list string)
    (transport pullFrom : string) : M string :=
  pullTo <-
    (if pullImageName f =? "" then
       pullTo <- index args 0 ;;
       if Nat.eqb (List.length args) 1 then
         if transport =? "" then
           call (UriGetName ("library://" ++ pullFrom))
                (uri_GetName w ("library://" ++ pullFrom))
         else
           call (UriGetName pullFrom) (uri_GetName w pullFrom)
       else ret pullTo
     else ret (pullImageName f)) ;;
  if negb (pullDir f =? "") then
    call (FilepathJoin (pullDir f) pullTo)
         (filepath_Join w (pullDir f) pullTo)
  else ret pullTo.

(** ** The library branch (pull.go, lines 225-269) *)
Definition pullLibrary (ctx : Ctx) (imgCache : Handle)
    (pullFrom pullTo : string) : M unit :=
  r <- call (NormalizeLibraryRef pullFrom)
            (library_NormalizeLibraryRef w pullFrom) ;;
  match r with
  | inr err => fatalf ("Malformed library reference: " ++ Error w err)
  | inl ref =>
    (if negb (pullLibraryURI f =? "") && negb (library.Host ref =? "") then
       fatalf "Conflicting arguments; do not use --library with a library URI containing host name"
     else ret tt) ;;;
    let libraryURI :=
      if negb (pullLibraryURI f =? "") then pullLibraryURI f
      else if negb (library.Host ref =? "") then
        if noHTTPS f then "http://" ++ library.Host ref
        else "https://" ++ library.Host ref
      else "" in
    r <- call (GetLibraryClientConfig libraryURI)
              (getLibraryClientConfig w libraryURI) ;;
    match r with
    | inr err =>
      fatalf ("Unable to get library client configuration: " ++ Error w err)
    | inl lc =>
      r <- call (GetKeyserverClientOpts "" KeyserverVerifyOp)
                (getKeyserverClientOpts w "" KeyserverVerifyOp) ;;
      match r with
      | inr err =>
        fatalf ("Unable to get keyserver client configuration: "
                ++ Error w err)
      | inl co =>
        let pullOpts :=
          {| library.Architecture := pullArch f;
             library.Endpoint_ := currentRemoteEndpoint f;
             library.KeyClientOpts := co;
             library.LibraryConfig := lc;
             library.RequireOciSif := pullOci f;
             library.TmpDir := tmpDir f |} in
        err <- call (LibraryPullToFile ctx imgCache pullTo ref pullOpts)
                    (library_PullToFile w ctx imgCache pullTo ref pullOpts) ;;
        (match err with
         | Some e =>
           if negb (isErrLibraryPullUnsigned e) then
             fatalf ("While pulling library image: " ++ Error w e)
           else ret tt
         | None => ret tt
         end) ;;;
        match err with
        | Some e =>
          if isErrLibraryPullUnsigned e then
            warningf "Skipping container verification"
          else ret tt
        | None => ret tt
        end
      end
    end
  end.

(** ** The shub branch (lines 271-274) *)
Definition pullShub (ctx : Ctx) (imgCache : Handle)
    (pullFrom pullTo : string) : M unit :=
  err <- call (ShubPullToFile ctx imgCache pullTo pullFrom (tmpDir f)
                 (noHTTPS f))
              (shub_PullToFile w ctx imgCache pullTo pullFrom (tmpDir f)
                 (noHTTPS f)) ;;
  match err with
  | Some e => fatalf ("While pulling shub image: " ++ Error w e ++ nl)
  | None => ret tt
  end.

(** ** The oras branch (lines 276-284) *)
Definition pullOras (cmd : Cmd) (ctx : Ctx) (imgCache : Handle)
    (pullFrom pullTo : string) : M unit :=
  r <- call (MakeDockerCredentials cmd) (makeDockerCredentials w cmd) ;;
  match r with
  | inr err =>
    fatalf ("Unable to make docker oci credentials: " ++ Error w err)
  | inl ociAuth =>
    err <- call (OrasPullToFile ctx imgCache pullTo pullFrom (tmpDir f)
                   ociAuth)
                (oras_PullToFile w ctx imgCache pullTo pullFrom (tmpDir f)
                   ociAuth) ;;
    match err with
    | Some e =>
      fatalf ("While pulling image from oci registry: " ++ Error w e)
    | None => ret tt
    end
  end.

(** ** The http and https branch (lines 286-289) *)
Definition pullNet (ctx : Ctx) (imgCache : Handle)
    (pullFrom pullTo : string) : M unit :=
  err <- call (NetPullToFile ctx imgCache pullTo pullFrom (tmpDir f))
              (net_PullToFile w ctx imgCache pullTo pullFrom (tmpDir f)) ;;
  match err with
  | Some e =>
    fatalf ("While pulling from image from http(s): " ++ Error w e ++ nl)
  | None => ret tt
  end.

(** ** The OCI branch (lines 291-308) *)
Definition pullOciRegistry (cmd : Cmd) (ctx : Ctx) (imgCache : Handle)
    (pullFrom pullTo : string) : M unit :=
  r <- call (MakeDockerCredentials cmd) (makeDockerCredentials w cmd) ;;
  match r with
  | inr err => fatalf ("While creating Docker credentials: " ++ Error w err)
  | inl ociAuth =>
    let pullOpts :=
      {| oci.TmpDir := tmpDir f;
         oci.OciAuth := ociAuth;
         oci.DockerHost := dockerHost f;
         oci.NoHTTPS := noHTTPS f;
         oci.NoCleanUp := noCleanUp f;
         oci.OciSif := pullOci f |} in
    err <- call (OciPullToFile ctx imgCache pullTo pullFrom pullOpts)
                (oci_PullToFile w ctx imgCache pullTo pullFrom pullOpts) ;;
    match err with
    | Some e =>
      fatalf ("While making image from oci registry: " ++ Error w e)
    | None => ret tt
    end
  end.

(** ** The switch on the transport (lines 223-311)

    Go tries the cases from top to bottom and evaluates a case expression
    only when the cases above it did not match, so [oci.IsSupported] is
    called only for a transport that is none of the literal ones; its case
    is taken when the string it returns equals the transport. *)
Definition dispatch (cmd : Cmd) (ctx : Ctx) (imgCache : Handle)
    (transport pullFrom pullTo : string) : M unit :=
  if (transport =? LibraryProtocol) || (transport =? "") then
    pullLibrary ctx imgCache pullFrom pullTo
  else if transport =? ShubProtocol then
    pullShub ctx imgCache pullFrom pullTo
  else if transport =? OrasProtocol then
    pullOras cmd ctx imgCache pullFrom pullTo
  else if (transport =? HTTPProtocol) || (transport =? HTTPSProtocol) then
    pullNet ctx imgCache pullFrom pullTo
  else
    supported <- call (OciIsSupported transport)
                      (oci_IsSupported w transport) ;;
    if transport =? supported then
      pullOciRegistry cmd ctx imgCache pullFrom pullTo
    else fatalf ("Unsupported transport type: " ++ transport).

(** ** pullRun (lines 185-312) *)
Definition pullRun (cmd : Cmd) (args : list string) : M unit :=
  ctx <- call (CmdContext cmd) (cmd_Context w cmd) ;;
  imgCache <- call (GetCacheHandle (disableCache f))
                   (getCacheHandle w (disableCache f)) ;;
  match imgCache with
  | None => fatalf "Failed to create an image cache handle"
  | Some imgCache =>
    pullFrom <- index args (List.length args - 1) ;;
    tr <- call (UriSplit pullFrom) (uri_Split w pullFrom) ;;
    let (transport, ref) := tr in
    (if ref =? "" then fatalf ("Bad URI " ++ pullFrom) else ret tt) ;;;
    pullTo <- resolveDestination args transport pullFrom ;;
    err <- call (OsStat pullTo) (os_Stat w pullTo) ;;
    (if negb (IsNotExist err) then
       if negb (forceOverwrite f) then
         fatalf ("Image file already exists: " ++ Quote w pullTo
                 ++ " - will not overwrite")
       else ret tt
     else ret tt) ;;;
    dispatch cmd ctx imgCache transport pullFrom pullTo
  end.

(** ** What is observed of a run *)

Definition trace {A : Type} (m : M A) : list Event := fst m.
Definition outcome {A : Type} (m : M A) : Result A := snd m.

(** The path [pullRun] settles on: the value [resolveDestination] hands
    back (it needs [args[0]] to exist when no name is forced). *)
Definition destination (args : list string)
    (transport pullFrom : string) : string :=
  match outcome (resolveDestination args transport pullFrom) with
  | Return pullTo => pullTo
  | _ => ""
  end.

(** The five [PullToFile] calls. *)
Definition isBackend (e : Event) : bool :=
  match e with
  | LibraryPullToFile _ _ _ _ _ | ShubPullToFile _ _ _ _ _ _
  | OrasPullToFile _ _ _ _ _ _ | NetPullToFile _ _ _ _ _
  | OciPullToFile _ _ _ _ _ => true
  | _ => false
  end.

Definition backendCalls (t : list Event) : list Event := filter isBackend t.

(** What the backend answered to a logged call: [None] for an event that
    is no backend call, [Some None] for a pull without error. *)
Definition backendResult (e : Event) : option (option error) :=
  match e with
  | LibraryPullToFile ctx c pullTo ref opts =>
    Some (library_PullToFile w ctx c pullTo ref opts)
  | ShubPullToFile ctx c pullTo pullFrom tmp nohttps =>
    Some (shub_PullToFile w ctx c pullTo pullFrom tmp nohttps)
  | OrasPullToFile ctx c pullTo pullFrom tmp auth =>
    Some (oras_PullToFile w ctx c pullTo pullFrom tmp auth)
  | NetPullToFile ctx c pullTo pullFrom tmp =>
    Some (net_PullToFile w ctx c pullTo pullFrom tmp)
  | OciPullToFile ctx c pullTo pullFrom opts =>
    Some (oci_PullToFile w ctx c pullTo pullFrom opts)
  | _ => None
  end.

(** The file a backend call is told to write. *)
Definition pullTarget (e : Event) : option string :=
  match e with
  | LibraryPullToFile _ _ pullTo _ _ | ShubPullToFile _ _ pullTo _ _ _
  | OrasPullToFile _ _ pullTo _ _ _ | NetPullToFile _ _ pullTo _ _
  | OciPullToFile _ _ pullTo _ _ => Some pullTo
  | _ => None
  end.

Fixpoint statPaths (t : list Event) : list string :=
  match t with
  | [] => []
  | OsStat p :: t' => p :: statPaths t'
  | _ :: t' => statPaths t'
  end.

Fixpoint warnings (t : list Event) : list string :=
  match t with
  | [] => []
  | Warningf msg :: t' => msg :: warnings t'
  | _ :: t' => warnings t'
  end.

(** The URIs handed to [getLibraryClientConfig]. *)
Fixpoint libraryURIs (t : list Event) : list string :=
  match t with
  | [] => []
  | GetLibraryClientConfig u :: t' => u :: libraryURIs t'
  | _ :: t' => libraryURIs t'
  end.

(** The endpoints put into the options of the library pulls. *)
Fixpoint libraryEndpoints (t : list Event) : list Endpoint :=
  match t with
  | [] => []
  | LibraryPullToFile _ _ _ _ opts :: t' =>
    library.Endpoint_ opts :: libraryEndpoints t'
  | _ :: t' => libraryEndpoints t'
  end.

(** ** The steps of a pull *)

Inductive Step : Type :=
| TakeContext
| AcquireCache
| Classify
| ResolveDestination
| ProbeDestination
| Normalize
| Prepare
| Backend
| Report.

(** The step each logged call belongs to. *)
Definition stepOf (e : Event) : Step :=
  match e with
  | CmdContext _ => TakeContext
  | GetCacheHandle _ => AcquireCache
  | UriSplit _ => Classify
  | UriGetName _ | FilepathJoin _ _ => ResolveDestination
  | OsStat _ => ProbeDestination
  | NormalizeLibraryRef _ => Normalize
  | GetLibraryClientConfig _ | GetKeyserverClientOpts _ _
  | MakeDockerCredentials _ | OciIsSupported _ => Prepare
  | LibraryPullToFile _ _ _ _ _ | ShubPullToFile _ _ _ _ _ _
  | OrasPullToFile _ _ _ _ _ _ | NetPullToFile _ _ _ _ _
  | OciPullToFile _ _ _ _ _ => Backend
  | Warningf _ => Report
  end.

(** The position of a step in the order in which [pullRun] is written. *)
Definition rank (s : Step) : nat :=
  match s with
  | TakeContext => 0
  | AcquireCache => 1
  | Classify => 2
  | ResolveDestination => 3
  | ProbeDestination => 4
  | Normalize => 5
  | Prepare => 6
  | Backend => 7
  | Report => 8
  end.

(** The order the design document gives: classify, normalize, resolve the
    destination (with its existence check), acquire the cache handle,
    dispatch to a backend.  Steps it does not name have no position. *)
Definition documentedRank (s : Step) : option nat :=
  match s with
  | Classify => Some 0
  | Normalize => Some 1
  | ResolveDestination | ProbeDestination => Some 2
  | AcquireCache => Some 3
  | Backend => Some 4
  | TakeContext | Prepare | Report => None
  end.

(** [l] never goes down, and starts at [lo] or above. *)
Fixpoint ascendingFrom (lo : nat) (l : list nat) : bool :=
  match l with
  | [] => true
  | x :: l' => Nat.leb lo x && ascendingFrom x l'
  end.

Definition ascending (l : list nat) : bool := ascendingFrom 0 l.

(** The positions, in the order of the code, of the calls of a run. *)
Definition ranks (t : list Event) : list nat :=
  map (fun e => rank (stepOf e)) t.

(** The same for the documented order, over the steps it names. *)
Fixpoint documentedRanks (t : list Event) : list nat :=
  match t with
  | [] => []
  | e :: t' =>
    match documentedRank (stepOf e) with
    | Some n => n :: documentedRanks t'
    | None => documentedRanks t'
    end
  end.

(** How often a step occurs in a run. *)
Definition isStep (s : Step) (e : Event) : bool :=
  Nat.eqb (rank (stepOf e)) (rank s).

Definition occurrences (s : Step) (t : list Event) : nat :=
  List.length (filter (isStep s) t).

End Model.

Arguments Event : clear implicits.
Arguments M : clear implicits.
Arguments Env : clear implicits.
Arguments Flags : clear implicits.

Arguments Step : clear implicits.

(** ** A sample environment

    Collaborators simple enough to run: they are used to evaluate [pullRun]
    on concrete command lines. *)

Module Sample.

Definition dquote : string := String (ascii_of_nat 34) EmptyString.

(** Cut a string at the first colon followed by a slash. *)
Fixpoint split (acc uri : string) : string * string :=
  match uri with
  | String ":" (String "/" _ as rest) => (acc, rest)
  | String c rest => split (acc ++ String c EmptyString) rest
  | EmptyString => (EmptyString, acc)
  end.

(** What follows the last slash. *)
Fixpoint basename (acc uri : string) : string :=
  match uri with
  | String "/" rest => basename EmptyString rest
  | String c rest => basename (acc ++ String c EmptyString) rest
  | EmptyString => acc
  end.

Definition getName (uri : string) : string :=
  basename EmptyString uri ++ "_latest.sif".

Definition normalize (uri : string) : library.Ref + error :=
  if uri =? "library://myhost/coll/img" then
    inl (library.mkRef "myhost" "coll/img" ["latest"])
  else if uri =? "library://" then
    inr (errorString "missing path")
  else inl (library.mkRef "" uri ["latest"]).

Definition isSupported (transport : string) : string :=
  if (transport =? "docker") || (transport =? "oci")
     || (transport =? "docker-archive") || (transport =? "oci-archive")
  then transport else "".

Definition errorText (e : error) : string :=
  match e with
  | ErrLibraryPullUnsigned => "image is not signed"
  | errorString msg => msg
  end.

(** The environment: [handle] is what the cache provider returns, [stat]
    the file system, [pulled] what every backend answers. *)
Definition env (handle : option nat) (stat : string -> option oserror)
    (pulled : option error) : Env unit unit nat string string unit string :=
  {| cmd_Context := fun _ => tt;
     getCacheHandle := fun _ => handle;
     uri_Split := split EmptyString;
     uri_GetName := getName;
     filepath_Join := fun dir name => dir ++ "/" ++ name;
     os_Stat := stat;
     library_NormalizeLibraryRef := normalize;
     getLibraryClientConfig := fun u => inl u;
     getKeyserverClientOpts := fun _ _ => inl tt;
     makeDockerCredentials := fun _ => inl "anonymous";
     oci_IsSupported := isSupported;
     library_PullToFile := fun _ _ _ _ _ => pulled;
     shub_PullToFile := fun _ _ _ _ _ _ => pulled;
     oras_PullToFile := fun _ _ _ _ _ _ => pulled;
     net_PullToFile := fun _ _ _ _ _ => pulled;
     oci_PullToFile := fun _ _ _ _ _ => pulled;
     Error := errorText;
     Quote := fun s => dquote ++ s ++ dquote |}.

(** File systems: an empty directory, one where every path is taken, one
    where every probe is refused. *)
Definition emptyDir (p : string) : option oserror := Some ErrNotExist.
Definition allTaken (p : string) : option oserror := None.
Definition denied (p : string) : option oserror := Some ErrPermission.

(** The options at their defaults (lines 62-147). *)
Definition defaults : Flags string :=
  {| pullLibraryURI := "";
     pullImageName := "";
     unauthenticatedPull := false;
     pullDir := "";
     pullArch := "amd64";
     pullOci := false;
     disableCache := false;
     forceOverwrite := false;
     noHTTPS := false;
     tmpDir := "";
     dockerHost := "";
     noCleanUp := false;
     currentRemoteEndpoint := "https://library.example" |}.

Definition withLibrary (u : string) (f : Flags string) : Flags string :=
  {| pullLibraryURI := u;
     pullImageName := pullImageName f;
     unauthenticatedPull := unauthenticatedPull f;
     pullDir := pullDir f;
     pullArch := pullArch f;
     pullOci := pullOci f;
     disableCache := disableCache f;
     forceOverwrite := forceOverwrite f;
     noHTTPS := noHTTPS f;
     tmpDir := tmpDir f;
     dockerHost := dockerHost f;
     noCleanUp := noCleanUp f;
     currentRemoteEndpoint := currentRemoteEndpoint f |}.

Definition withName (n : string) (f : Flags string) : Flags string :=
  {| pullLibraryURI := pullLibraryURI f;
     pullImageName := n;
     unauthenticatedPull := unauthenticatedPull f;
     pullDir := pullDir f;
     pullArch := pullArch f;
     pullOci := pullOci f;
     disableCache := disableCache f;
     forceOverwrite := forceOverwrite f;
     noHTTPS := noHTTPS f;
     tmpDir := tmpDir f;
     dockerHost := dockerHost f;
     noCleanUp := noCleanUp f;
     currentRemoteEndpoint := currentRemoteEndpoint f |}.

Definition withDir (d : string) (f : Flags string) : Flags string :=
  {| pullLibraryURI := pullLibraryURI f;
     pullImageName := pullImageName f;
     unauthenticatedPull := unauthenticatedPull f;
     pullDir := d;
     pullArch := pullArch f;
     pullOci := pullOci f;
     disableCache := disableCache f;
     forceOverwrite := forceOverwrite f;
     noHTTPS := noHTTPS f;
     tmpDir := tmpDir f;
     dockerHost := dockerHost f;
     noCleanUp := noCleanUp f;
     currentRemoteEndpoint := currentRemoteEndpoint f |}.

Definition withForce (b : bool) (f : Flags string) : Flags string :=
  {| pullLibraryURI := pullLibraryURI f;
     pullImageName := pullImageName f;
     unauthenticatedPull := unauthenticatedPull f;
     pullDir := pullDir f;
     pullArch := pullArch f;
     pullOci := pullOci f;
     disableCache := disableCache f;
     forceOverwrite := b;
     noHTTPS := noHTTPS f;
     tmpDir := tmpDir f;
     dockerHost := dockerHost f;
     noCleanUp := noCleanUp f;
     currentRemoteEndpoint := currentRemoteEndpoint f |}.

(** ** Sample command lines *)

(** Nothing in the way, every pull succeeds. *)
Definition quiet : Env unit unit nat string string unit string :=
  env (Some 7) emptyDir None.

(** [singularity pull alpine.sif library://alpine] *)
Definition named : list string := ["alpine.sif"; "library://alpine"].

(** A library reference with a host, and a [--library] override. *)
Definition hosted : string := "library://myhost/coll/img".
Definition hostedRef : library.Ref :=
  library.mkRef "myhost" "coll/img" ["latest"].
Definition overridden : Flags string := withLibrary "https://other" defaults.

(** The diagnostic of the existence check for a path, with the quoting of
    the sample environment. *)
Definition alreadyExists (path : string) : string :=
  "Image file already exists: " ++ dquote ++ path ++ dquote
  ++ " - will not overwrite".

(** The library pull that [singularity pull alpine] makes. *)
Definition alpinePull : Event unit unit nat string string unit string :=
  LibraryPullToFile tt 7 "alpine_latest.sif"
    (library.mkRef "" "alpine" ["latest"])
    {| library.Architecture := "amd64";
       library.Endpoint_ := "https://library.example";
       library.KeyClientOpts := tt;
       library.LibraryConfig := "";
       library.RequireOciSif := false;
       library.TmpDir := "" |}.

(** [quiet] without a remote to configure the library client from. *)
Definition noRemote : Env unit unit nat string string unit string :=
  {| cmd_Context := cmd_Context quiet;
     getCacheHandle := getCacheHandle quiet;
     uri_Split := uri_Split quiet;
     uri_GetName := uri_GetName quiet;
     filepath_Join := filepath_Join quiet;
     os_Stat := os_Stat quiet;
     library_NormalizeLibraryRef := library_NormalizeLibraryRef quiet;
     getLibraryClientConfig := fun _ => inr (errorString "no remote");
     getKeyserverClientOpts := getKeyserverClientOpts quiet;
     makeDockerCredentials := makeDockerCredentials quiet;
     oci_IsSupported := oci_IsSupported quiet;
     library_PullToFile := library_PullToFile quiet;
     shub_PullToFile := shub_PullToFile quiet;
     oras_PullToFile := oras_PullToFile quiet;
     net_PullToFile := net_PullToFile quiet;
     oci_PullToFile := oci_PullToFile quiet;
     Error := Error quiet;
     Quote := Quote quiet |}.

(** [quiet] without docker credentials. *)
Definition noCredentials : Env unit unit nat string string unit string :=
  {| cmd_Context := cmd_Context quiet;
     getCacheHandle := getCacheHandle quiet;
     uri_Split := uri_Split quiet;
     uri_GetName := uri_GetName quiet;
     filepath_Join := filepath_Join quiet;
     os_Stat := os_Stat quiet;
     library_NormalizeLibraryRef := library_NormalizeLibraryRef quiet;
     getLibraryClientConfig := getLibraryClientConfig quiet;
     getKeyserverClientOpts := getKeyserverClientOpts quiet;
     makeDockerCredentials := fun _ => inr (errorString "bad login");
     oci_IsSupported := oci_IsSupported quiet;
     library_PullToFile := library_PullToFile quiet;
     shub_PullToFile := shub_PullToFile quiet;
     oras_PullToFile := oras_PullToFile quiet;
     net_PullToFile := net_PullToFile quiet;
     oci_PullToFile := oci_PullToFile quiet;
     Error := Error quiet;
     Quote := Quote quiet |}.

(** The hub pull that [singularity pull shub://user/repo] makes. *)
Definition repoPull : Event unit unit nat string string unit string :=
  ShubPullToFile tt 7 "repo_latest.sif" "shub://user/repo" "" false.

(** The OCI pull that [singularity pull docker://alpine] makes. *)
Definition dockerPull : Event unit unit nat string string unit string :=
  OciPullToFile tt 7 "alpine_latest.sif" "docker://alpine"
    {| oci.TmpDir := "";
       oci.OciAuth := "anonymous";
       oci.DockerHost := "";
       oci.NoHTTPS := false;
       oci.NoCleanUp := false;
       oci.OciSif := false |}.


End Sample.

(** * Properties *)

Unset Implicit Arguments.

Section Properties.

Context {Cmd Ctx Handle Endpoint LibConfig KeyOpts Auth : Type}.

Abbreviation Env' := (Env Cmd Ctx Handle Endpoint LibConfig KeyOpts Auth).
Abbreviation Event' :=
  (Event Cmd Ctx Handle Endpoint LibConfig KeyOpts Auth).

Implicit Types (w : Env') (f : Flags Endpoint) (cmd : Cmd)
  (args : list string) (t : list Event').

Local Open Scope list_scope.

(** The run gets as far as resolving a destination: the cache provider
    returned the handle [h], the last positional argument is the locator
    [pullFrom], and it splits into [transport] and a non-empty reference
    body. *)
Definition resolves w f args (h : Handle)
    (pullFrom transport : string) : Prop :=
  getCacheHandle w (disableCache f) = Some h /\
  nth_error args (List.length args - 1) = Some pullFrom /\
  fst (uri_Split w pullFrom) = transport /\
  snd (uri_Split w pullFrom) <> EmptyString.

(** The existence check lets the run through. *)
Definition mayWrite w f (pullTo : string) : bool :=
  IsNotExist (os_Stat w pullTo) || forceOverwrite f.

(** The calls of a run up to and including the probe of the destination. *)
Definition prologue w f cmd args (pullFrom transport : string)
  : list Event' :=
  [CmdContext cmd; GetCacheHandle (disableCache f); UriSplit pullFrom]
    ++ trace (resolveDestination w f args transport pullFrom)
    ++ [OsStat (destination w f args transport pullFrom)].

(** The message of the fatal exit after the backend call [e] came back
    with the error [err]: the format string of the branch, filled in. *)
Definition failureMessage w (e : Event') (err : error) : string :=
  match e with
  | LibraryPullToFile _ _ _ _ _ =>
    "While pulling library image: " ++ Error w err
  | ShubPullToFile _ _ _ _ _ _ =>
    "While pulling shub image: " ++ Error w err ++ nl
  | OrasPullToFile _ _ _ _ _ _ =>
    "While pulling image from oci registry: " ++ Error w err
  | NetPullToFile _ _ _ _ _ =>
    "While pulling from image from http(s): " ++ Error w err ++ nl
  | OciPullToFile _ _ _ _ _ =>
    "While making image from oci registry: " ++ Error w err
  | _ => EmptyString
  end.

(** The one soft failure: the unsigned sentinel out of the library
    backend. *)
Definition isSoftFailure (e : Event') (err : error) : bool :=
  match e with
  | LibraryPullToFile _ _ _ _ _ => isErrLibraryPullUnsigned err
  | _ => false
  end.

(** What a run must look like after its backend call [e]. *)
Definition reported w (e : Event') (m : M Cmd Ctx Handle Endpoint LibConfig
                                         KeyOpts Auth unit) : Prop :=
  match backendResult w e with
  | Some None => outcome m = Return tt /\ warnings (trace m) = []
  | Some (Some err) =>
    if isSoftFailure e err then
      outcome m = Return tt /\
      warnings (trace m) = ["Skipping container verification"%string]
    else
      outcome m = Fatal (failureMessage w e err) /\ warnings (trace m) = []
  | None => False
  end.

(** ** The design document's wording, for comparison *)

(** The file name as the design document words it: the name override,
    else with two positional arguments (source locator, local name) the
    second one, else the name derived from the locator. *)
Definition documentedName w f args : string :=
  if negb (pullImageName f =? "") then pullImageName f
  else match args with
       | [locator; localName] => localName
       | [locator] =>
         if fst (uri_Split w locator) =? "" then
           uri_GetName w ("library://" ++ locator)
         else uri_GetName w locator
       | _ => EmptyString
       end.

Definition documentedDestination w f args : string :=
  if negb (pullDir f =? "") then
    filepath_Join w (pullDir f) (documentedName w f args)
  else documentedName w f args.

(** The diagnostic of the conflict between [--library] and a host in the
    reference (line 231). *)
Definition conflictDiagnostic : string :=
  "Conflicting arguments; do not use --library with a library URI containing host name".

(** [sub] occurs in [s]. *)
Definition contains (sub s : string) : bool :=
  match String.index 0 sub s with
  | Some _ => true
  | None => false
  end.

(** The transport is none of those the switch knows. *)
Definition unsupported w (transport : string) : Prop :=
  transport <> EmptyString /\
  transport <> LibraryProtocol /\ transport <> ShubProtocol /\
  transport <> OrasProtocol /\ transport <> HTTPProtocol /\
  transport <> HTTPSProtocol /\ oci_IsSupported w transport <> transport.

(** The environment [w] with another file system. *)
Definition withStat w (stat : string -> option oserror) : Env' :=
  {| cmd_Context := cmd_Context w;
     getCacheHandle := getCacheHandle w;
     uri_Split := uri_Split w;
     uri_GetName := uri_GetName w;
     filepath_Join := filepath_Join w;
     os_Stat := stat;
     library_NormalizeLibraryRef := library_NormalizeLibraryRef w;
     getLibraryClientConfig := getLibraryClientConfig w;
     getKeyserverClientOpts := getKeyserverClientOpts w;
     makeDockerCredentials := makeDockerCredentials w;
     oci_IsSupported := oci_IsSupported w;
     library_PullToFile := library_PullToFile w;
     shub_PullToFile := shub_PullToFile w;
     oras_PullToFile := oras_PullToFile w;
     net_PullToFile := net_PullToFile w;
     oci_PullToFile := oci_PullToFile w;
     Error := Error w;
     Quote := Quote w |}.

(** The file system that answers "exists" wherever [stat] answers anything
    but "does not exist". *)
Definition asExisting (stat : string -> option oserror) (p : string)
  : option oserror :=
  if IsNotExist (stat p) then stat p else None.

(** The options [f] with another value of the flag behind
    [--allow-unsigned] and [--allow-unauthenticated]. *)
Definition withUnauthenticatedPull (b : bool) f : Flags Endpoint :=
  {| pullLibraryURI := pullLibraryURI f;
     pullImageName := pullImageName f;
     unauthenticatedPull := b;
     pullDir := pullDir f;
     pullArch := pullArch f;
     pullOci := pullOci f;
     disableCache := disableCache f;
     forceOverwrite := forceOverwrite f;
     noHTTPS := noHTTPS f;
     tmpDir := tmpDir f;
     dockerHost := dockerHost f;
     noCleanUp := noCleanUp f;
     currentRemoteEndpoint := currentRemoteEndpoint f |}.

(** ** More to observe of a run *)

(** The five backends. *)
Inductive BackendKind : Type :=
| LibraryBackend
| ShubBackend
| OrasBackend
| NetBackend
| OciBackend.

(** The backend a logged call went to. *)
Definition kindOf (e : Event') : option BackendKind :=
  match e with
  | LibraryPullToFile _ _ _ _ _ => Some LibraryBackend
  | ShubPullToFile _ _ _ _ _ _ => Some ShubBackend
  | OrasPullToFile _ _ _ _ _ _ => Some OrasBackend
  | NetPullToFile _ _ _ _ _ => Some NetBackend
  | OciPullToFile _ _ _ _ _ => Some OciBackend
  | _ => None
  end.

(** The transport is one of the strings the switch names before it asks
    [oci.IsSupported]. *)
Definition isLiteralTransport (transport : string) : bool :=
  (transport =? LibraryProtocol) || (transport =? "")
  || (transport =? ShubProtocol) || (transport =? OrasProtocol)
  || (transport =? HTTPProtocol) || (transport =? HTTPSProtocol).

(** The case of the switch a transport falls in, if any: the literal cases
    from top to bottom, then the answer of [oci.IsSupported]. *)
Definition selects w (transport : string) : option BackendKind :=
  if (transport =? LibraryProtocol) || (transport =? "") then
    Some LibraryBackend
  else if transport =? ShubProtocol then Some ShubBackend
  else if transport =? OrasProtocol then Some OrasBackend
  else if (transport =? HTTPProtocol) || (transport =? HTTPSProtocol) then
    Some NetBackend
  else if transport =? oci_IsSupported w transport then Some OciBackend
  else None.

(** The URI lines 234-244 settle on for the library client. *)
Definition chosenLibraryURI f (ref : library.Ref) : string :=
  if negb (pullLibraryURI f =? "") then pullLibraryURI f
  else if negb (library.Host ref =? "") then
         if noHTTPS f then "http://" ++ library.Host ref
         else "https://" ++ library.Host ref
       else EmptyString.

(** The case the transport selects gets as far as its backend call: the
    transport is supported, and what the case does before the call comes
    back without error (the reference normalizes without conflict and both
    client configurations are had on the library case, the credentials are
    made on the oras and OCI cases; the hub and net cases do nothing
    before). *)
Definition prepared w f cmd (transport pullFrom : string) : bool :=
  match selects w transport with
  | Some LibraryBackend =>
    match library_NormalizeLibraryRef w pullFrom with
    | inl ref =>
      if negb (pullLibraryURI f =? "") && negb (library.Host ref =? "") then
        false
      else
        match getLibraryClientConfig w (chosenLibraryURI f ref) with
        | inl _ =>
          match getKeyserverClientOpts w "" KeyserverVerifyOp with
          | inl _ => true
          | inr _ => false
          end
        | inr _ => false
        end
    | inr _ => false
    end
  | Some ShubBackend | Some NetBackend => true
  | Some OrasBackend | Some OciBackend =>
    match makeDockerCredentials w cmd with
    | inl _ => true
    | inr _ => false
    end
  | None => false
  end.

(** The transports [oci.IsSupported] was asked about. *)
Fixpoint supportQueries (t : list Event') : list string :=
  match t with
  | [] => []
  | OciIsSupported transport :: t' => transport :: supportQueries t'
  | _ :: t' => supportQueries t'
  end.

(** The strings handed to [library.NormalizeLibraryRef]. *)
Fixpoint normalizations (t : list Event') : list string :=
  match t with
  | [] => []
  | NormalizeLibraryRef u :: t' => u :: normalizations t'
  | _ :: t' => normalizations t'
  end.

(** The strings handed to [uri.GetName]. *)
Fixpoint derivations (t : list Event') : list string :=
  match t with
  | [] => []
  | UriGetName u :: t' => u :: derivations t'
  | _ :: t' => derivations t'
  end.

(** The strings handed to [uri.Split]. *)
Fixpoint classifications (t : list Event') : list string :=
  match t with
  | [] => []
  | UriSplit u :: t' => u :: classifications t'
  | _ :: t' => classifications t'
  end.

(** The context, the cache handle, the locator and the temporary directory
    a backend call carries; the library backend gets a normalized reference
    instead of the locator. *)
Definition callContext (e : Event') : option Ctx :=
  match e with
  | LibraryPullToFile ctx _ _ _ _ | ShubPullToFile ctx _ _ _ _ _
  | OrasPullToFile ctx _ _ _ _ _ | NetPullToFile ctx _ _ _ _
  | OciPullToFile ctx _ _ _ _ => Some ctx
  | _ => None
  end.

Definition callCache (e : Event') : option Handle :=
  match e with
  | LibraryPullToFile _ c _ _ _ | ShubPullToFile _ c _ _ _ _
  | OrasPullToFile _ c _ _ _ _ | NetPullToFile _ c _ _ _
  | OciPullToFile _ c _ _ _ => Some c
  | _ => None
  end.

Definition callLocator (e : Event') : option string :=
  match e with
  | ShubPullToFile _ _ _ pullFrom _ _ | OrasPullToFile _ _ _ pullFrom _ _
  | NetPullToFile _ _ _ pullFrom _ | OciPullToFile _ _ _ pullFrom _ =>
    Some pullFrom
  | _ => None
  end.

Definition callReference (e : Event') : option library.Ref :=
  match e with
  | LibraryPullToFile _ _ _ ref _ => Some ref
  | _ => None
  end.

Definition callTmpDir (e : Event') : option string :=
  match e with
  | LibraryPullToFile _ _ _ _ opts => Some (library.TmpDir opts)
  | ShubPullToFile _ _ _ _ tmp _ | OrasPullToFile _ _ _ _ tmp _
  | NetPullToFile _ _ _ _ tmp => Some tmp
  | OciPullToFile _ _ _ _ opts => Some (oci.TmpDir opts)
  | _ => None
  end.

(** The credentials an oras or OCI call carries. *)
Definition callAuth (e : Event') : option Auth :=
  match e with
  | OrasPullToFile _ _ _ _ _ ociAuth => Some ociAuth
  | OciPullToFile _ _ _ _ opts => Some (oci.OciAuth opts)
  | _ => None
  end.

(** The options [f] with another [--library]. *)
Definition withPullLibraryURI (u : string) f : Flags Endpoint :=
  {| pullLibraryURI := u;
     pullImageName := pullImageName f;
     unauthenticatedPull := unauthenticatedPull f;
     pullDir := pullDir f;
     pullArch := pullArch f;
     pullOci := pullOci f;
     disableCache := disableCache f;
     forceOverwrite := forceOverwrite f;
     noHTTPS := noHTTPS f;
     tmpDir := tmpDir f;
     dockerHost := dockerHost f;
     noCleanUp := noCleanUp f;
     currentRemoteEndpoint := currentRemoteEndpoint f |}.

(** The options [f] with another [--force]. *)
Definition withForceOverwrite (b : bool) f : Flags Endpoint :=
  {| pullLibraryURI := pullLibraryURI f;
     pullImageName := pullImageName f;
     unauthenticatedPull := unauthenticatedPull f;
     pullDir := pullDir f;
     pullArch := pullArch f;
     pullOci := pullOci f;
     disableCache := disableCache f;
     forceOverwrite := b;
     noHTTPS := noHTTPS f;
     tmpDir := tmpDir f;
     dockerHost := dockerHost f;
     noCleanUp := noCleanUp f;
     currentRemoteEndpoint := currentRemoteEndpoint f |}.

(** ** Generic facts on logs *)

Lemma trace_pair (A : Type) t (r : Result A) : trace (t, r) = t.
Proof. reflexivity. Qed.

Lemma outcome_pair (A : Type) t (r : Result A) : outcome (t, r) = r.
Proof. reflexivity. Qed.

Lemma statPaths_app t1 t2 :
  statPaths (t1 ++ t2) = statPaths t1 ++ statPaths t2.
Proof.
  induction t1 as [|e t1 IH]; simpl; [reflexivity|].
  destruct e; simpl; rewrite IH; reflexivity.
Qed.

Lemma warnings_app t1 t2 :
  warnings (t1 ++ t2) = warnings t1 ++ warnings t2.
Proof.
  induction t1 as [|e t1 IH]; simpl; [reflexivity|].
  destruct e; simpl; rewrite IH; reflexivity.
Qed.

Lemma libraryURIs_app t1 t2 :
  libraryURIs (t1 ++ t2) = libraryURIs t1 ++ libraryURIs t2.
Proof.
  induction t1 as [|e t1 IH]; simpl; [reflexivity|].
  destruct e; simpl; rewrite IH; reflexivity.
Qed.

Lemma libraryEndpoints_app t1 t2 :
  libraryEndpoints (t1 ++ t2) = libraryEndpoints t1 ++ libraryEndpoints t2.
Proof.
  induction t1 as [|e t1 IH]; simpl; [reflexivity|].
  destruct e; simpl; rewrite IH; reflexivity.
Qed.

Lemma backendCalls_app t1 t2 :
  backendCalls (t1 ++ t2) = backendCalls t1 ++ backendCalls t2.
Proof. apply filter_app. Qed.

(** ** Occurrence of one string in another *)

Lemma prefix_append (sub rest : string) :
  String.prefix sub (sub ++ rest) = true.
Proof.
  induction sub as [|c sub IH]; simpl.
  - destruct rest; reflexivity.
  - destruct (ascii_dec c c) as [_|N]; [exact IH|congruence].
Qed.

Lemma contains_suffix (sub rest : string) :
  contains sub (sub ++ rest) = true.
Proof.
  unfold contains. destruct sub as [|a sub].
  - destruct rest; reflexivity.
  - pose proof (prefix_append (String a sub) rest) as H.
    cbn [String.append String.index] in *. rewrite H. reflexivity.
Qed.

Lemma contains_infix (pre sub post : string) :
  contains sub (pre ++ sub ++ post) = true.
Proof.
  induction pre as [|c pre IH].
  - exact (contains_suffix sub post).
  - unfold contains in *. cbn [String.append String.index].
    destruct (String.prefix sub (String c (pre ++ sub ++ post)));
      [reflexivity|].
    destruct (String.index 0 sub (pre ++ sub ++ post));
      [reflexivity|discriminate IH].
Qed.

Lemma append_empty (s : string) : (s ++ "")%string = s.
Proof. induction s as [|c s IH]; simpl; [reflexivity|]. now rewrite IH. Qed.

Lemma contains_after (pre sub : string) :
  contains sub (pre ++ sub) = true.
Proof.
  rewrite <- (append_empty sub) at 2. apply contains_infix.
Qed.

(** ** The shape of a run *)

(** With [args[0]] there, destination resolution returns; its calls are
    all naming calls. *)
Lemma resolveDestination_returns w f args transport pullFrom :
  args <> [] ->
  resolveDestination w f args transport pullFrom
  = (trace (resolveDestination w f args transport pullFrom),
     Return (destination w f args transport pullFrom)) /\
  Forall (fun e => stepOf e = ResolveDestination)
         (trace (resolveDestination w f args transport pullFrom)).
Proof.
  intros Hargs. destruct args as [|a0 args']; [congruence|].
  unfold destination, resolveDestination, index, bind, call, ret,
    trace, outcome; simpl.
  destruct (pullImageName f =? ""), (pullDir f =? ""),
    (Nat.eqb (List.length args') 0), (transport =? "")%string; simpl;
    split; try reflexivity; repeat constructor.
Qed.

(** A run that resolves its destination: the prologue, then either the
    refusal to overwrite or the switch on the transport. *)
Lemma pullRun_resolved w f cmd args h pullFrom transport :
  resolves w f args h pullFrom transport ->
  pullRun w f cmd args =
  if mayWrite w f (destination w f args transport pullFrom) then
    (prologue w f cmd args pullFrom transport
       ++ trace (dispatch w f cmd (cmd_Context w cmd) h transport pullFrom
                   (destination w f args transport pullFrom)),
     outcome (dispatch w f cmd (cmd_Context w cmd) h transport pullFrom
                (destination w f args transport pullFrom)))
  else
    (prologue w f cmd args pullFrom transport,
     Fatal ("Image file already exists: "
            ++ Quote w (destination w f args transport pullFrom)
            ++ " - will not overwrite")).
Proof.
  intros (Hh & Hlast & Htr & Href).
  assert (Hargs : args <> []).
  { intros ->. simpl in Hlast. discriminate. }
  destruct (resolveDestination_returns w f args transport pullFrom Hargs)
    as [Hres _].
  unfold pullRun, prologue, mayWrite.
  unfold bind at 1. simpl.
  unfold bind at 1. simpl. rewrite Hh.
  unfold index. rewrite Hlast.
  destruct (uri_Split w pullFrom) as [tr ref] eqn:Hsplit.
  simpl in Htr, Href. subst tr.
  apply String.eqb_neq in Href.
  unfold bind, call, ret, fatalf; simpl. rewrite Hsplit, Href.
  rewrite Hres. simpl.
  destruct (IsNotExist (os_Stat w _)); simpl.
  - destruct (dispatch w f cmd (cmd_Context w cmd) h transport pullFrom _)
      as [td rd]; simpl.
    unfold trace; simpl. rewrite <- !app_assoc. reflexivity.
  - destruct (forceOverwrite f); simpl.
    + destruct (dispatch w f cmd (cmd_Context w cmd) h transport pullFrom _)
        as [td rd]; simpl.
      unfold trace; simpl. rewrite <- !app_assoc. reflexivity.
    + reflexivity.
Qed.

(** Runs that stop before a destination is resolved. *)
Lemma pullRun_no_cache w f cmd args :
  getCacheHandle w (disableCache f) = None ->
  pullRun w f cmd args =
  ([CmdContext cmd; GetCacheHandle (disableCache f)],
   Fatal "Failed to create an image cache handle").
Proof.
  intros Hh. unfold pullRun, bind, call, fatalf; simpl.
  rewrite Hh. reflexivity.
Qed.

Lemma pullRun_no_args w f cmd h :
  getCacheHandle w (disableCache f) = Some h ->
  pullRun w f cmd [] =
  ([CmdContext cmd; GetCacheHandle (disableCache f)], Panic).
Proof.
  intros Hh. unfold pullRun, bind, call, fatalf; simpl.
  rewrite Hh. reflexivity.
Qed.

Lemma pullRun_bad_uri w f cmd args h pullFrom :
  getCacheHandle w (disableCache f) = Some h ->
  nth_error args (List.length args - 1) = Some pullFrom ->
  snd (uri_Split w pullFrom) = EmptyString ->
  pullRun w f cmd args =
  ([CmdContext cmd; GetCacheHandle (disableCache f); UriSplit pullFrom],
   Fatal ("Bad URI " ++ pullFrom)).
Proof.
  intros Hh Hlast Href. unfold pullRun, bind, call, fatalf, index; simpl.
  rewrite Hh, Hlast. simpl.
  destruct (uri_Split w pullFrom) as [tr ref]. simpl in Href. subst ref.
  reflexivity.
Qed.

(** Every run is of one of four kinds. *)
Lemma pullRun_kinds w f args :
  getCacheHandle w (disableCache f) = None \/
  (exists h, getCacheHandle w (disableCache f) = Some h /\ args = []) \/
  (exists h pullFrom,
      getCacheHandle w (disableCache f) = Some h /\
      nth_error args (List.length args - 1) = Some pullFrom /\
      snd (uri_Split w pullFrom) = EmptyString) \/
  (exists h pullFrom,
      resolves w f args h pullFrom (fst (uri_Split w pullFrom))).
Proof.
  destruct (getCacheHandle w (disableCache f)) as [h|] eqn:Hh;
    [|left; reflexivity].
  right.
  destruct (nth_error args (List.length args - 1)) as [pullFrom|] eqn:Hlast.
  - right.
    destruct (string_dec (snd (uri_Split w pullFrom)) EmptyString) as [E|E].
    + left. exists h, pullFrom. auto.
    + right. exists h, pullFrom. unfold resolves. auto.
  - left. exists h. split; [reflexivity|].
    apply nth_error_None in Hlast.
    destruct args as [|a0 args']; [reflexivity|]. simpl in Hlast. lia.
Qed.

(** Naming calls are no probe, no backend call, no warning. *)
Lemma naming_calls_silent t :
  Forall (fun e => stepOf e = ResolveDestination) t ->
  statPaths t = [] /\ warnings t = [] /\ libraryURIs t = [] /\
  backendCalls t = [] /\ libraryEndpoints t = [] /\
  ranks t = repeat 3 (List.length t).
Proof.
  induction 1 as [|e t He _ IH]; simpl; [repeat split; reflexivity|].
  destruct IH as (H1 & H2 & H3 & H4 & H5 & H6).
  destruct e; try discriminate He; simpl; rewrite ?H6; auto 10.
Qed.

Lemma ascendingFrom_repeat n k l :
  ascendingFrom n l = true ->
  ascendingFrom n (repeat n k ++ l) = true.
Proof.
  intros Hl. induction k as [|k IH]; simpl; [assumption|].
  rewrite Nat.leb_refl. exact IH.
Qed.

Lemma ascendingFrom_weaken lo hi l :
  lo <= hi -> ascendingFrom hi l = true -> ascendingFrom lo l = true.
Proof.
  intros Hle. destruct l as [|x l]; simpl; [reflexivity|].
  intros H. apply andb_true_iff in H as [H1 H2]. rewrite H2.
  apply Nat.leb_le in H1. rewrite andb_true_r. apply Nat.leb_le. lia.
Qed.

(** ** The switch, path by path *)

Local Arguments String.eqb : simpl never.
Local Arguments String.append : simpl never.

Ltac expose_dispatch :=
  unfold dispatch, pullLibrary, pullShub, pullOras, pullNet,
    pullOciRegistry, bind, call, ret, fatalf, warningf, trace, outcome;
  simpl.

Ltac plain x :=
  lazymatch x with
  | context [match _ with _ => _ end] => fail
  | _ => idtac
  end.

Ltac split_paths :=
  repeat match goal with
         | |- context [match ?x with _ => _ end] =>
           plain x; destruct x eqn:?; simpl
         end.

Lemma dispatch_statPaths w f cmd ctx h transport pullFrom pullTo :
  statPaths (trace (dispatch w f cmd ctx h transport pullFrom pullTo)) = [].
Proof. expose_dispatch. split_paths; reflexivity. Qed.

Lemma dispatch_at_most_one w f cmd ctx h transport pullFrom pullTo :
  List.length
    (backendCalls
       (trace (dispatch w f cmd ctx h transport pullFrom pullTo))) <= 1.
Proof. expose_dispatch. split_paths; simpl; lia. Qed.

Lemma dispatch_ascending w f cmd ctx h transport pullFrom pullTo :
  ascendingFrom 5
    (ranks (trace (dispatch w f cmd ctx h transport pullFrom pullTo)))
  = true.
Proof. expose_dispatch. split_paths; reflexivity. Qed.

Lemma dispatch_targets w f cmd ctx h transport pullFrom pullTo :
  Forall (fun e => pullTarget e = Some pullTo)
    (backendCalls
       (trace (dispatch w f cmd ctx h transport pullFrom pullTo))).
Proof. expose_dispatch. split_paths; repeat constructor. Qed.

(** ** How a backend call ends *)

Lemma dispatch_reported w f cmd ctx h transport pullFrom pullTo e :
  In e (backendCalls
          (trace (dispatch w f cmd ctx h transport pullFrom pullTo))) ->
  reported w e (dispatch w f cmd ctx h transport pullFrom pullTo).
Proof.
  expose_dispatch.
  split_paths; intros Hin; simpl in Hin;
    try contradiction; destruct Hin as [<-|[]];
    unfold reported, trace, outcome; simpl;
    repeat match goal with
           | H : _ = Some _ |- _ => rewrite H
           | H : _ = None |- _ => rewrite H
           end;
    simpl;
    repeat match goal with
           | H : negb _ = _ |- _ =>
             first [apply negb_true_iff in H | apply negb_false_iff in H];
             rewrite H
           | H : isErrLibraryPullUnsigned _ = _ |- _ => rewrite H
           end;
    auto; simpl in *; congruence.
Qed.

(** ** The prologue *)

Lemma resolves_args w f args h pullFrom transport :
  resolves w f args h pullFrom transport -> args <> [].
Proof. intros (_ & Hlast & _) ->. discriminate Hlast. Qed.

Lemma prologue_observed w f cmd args h pullFrom transport :
  resolves w f args h pullFrom transport ->
  statPaths (prologue w f cmd args pullFrom transport)
  = [destination w f args transport pullFrom] /\
  backendCalls (prologue w f cmd args pullFrom transport) = [] /\
  warnings (prologue w f cmd args pullFrom transport) = [] /\
  libraryURIs (prologue w f cmd args pullFrom transport) = [].
Proof.
  intros Hres. apply resolves_args in Hres.
  destruct (resolveDestination_returns w f args transport pullFrom Hres)
    as [_ Hnaming].
  apply naming_calls_silent in Hnaming
    as (H1 & H2 & H3 & H4 & _ & _).
  unfold prologue. simpl.
  rewrite statPaths_app, backendCalls_app, warnings_app, libraryURIs_app.
  rewrite H1, H2, H3, H4. simpl. auto.
Qed.

(** The value of [pullTo] after lines 199-213, spelled out. *)
Lemma destination_spelled w f args transport pullFrom :
  RangeArgs 1 2 args = true ->
  destination w f args transport pullFrom =
  let name :=
    if negb (pullImageName f =? "") then pullImageName f
    else match args with
         | [localName; _] => localName
         | _ => uri_GetName w (if transport =? "" then
                                 "library://" ++ pullFrom
                               else pullFrom)
         end in
  if negb (pullDir f =? "") then filepath_Join w (pullDir f) name
  else name.
Proof.
  unfold RangeArgs.
  destruct args as [|a0 [|a1 [|a2 args']]]; simpl; intros H;
    try discriminate;
    unfold destination, resolveDestination, index, bind, call, ret,
      outcome; simpl;
    destruct (pullImageName f =? ""), (pullDir f =? ""),
      (transport =? "")%string; reflexivity.
Qed.

(** ** The claims *)

(** C1, amended.  For every invocation that gets to resolve a destination,
    the output file name is chosen by this priority, highest first: the
    name override if it is not empty; otherwise, when two positional
    arguments are present, the FIRST of them (the local name; the source
    locator is the last argument); otherwise the name derived from the
    locator.  If a target directory is set, the name is joined under it.
    The resulting path is the one path probed and the path every backend
    call is told to write. *)
Theorem C1_filename_priority w f cmd args h pullFrom transport :
  RangeArgs 1 2 args = true ->
  resolves w f args h pullFrom transport ->
  let name :=
    if negb (pullImageName f =? "") then pullImageName f
    else match args with
         | [localName; _] => localName
         | _ => uri_GetName w (if transport =? "" then
                                 "library://" ++ pullFrom
                               else pullFrom)
         end in
  let pullTo :=
    if negb (pullDir f =? "") then filepath_Join w (pullDir f) name
    else name in
  (forall localName locator, args = [localName; locator] ->
                             pullFrom = locator) /\
  destination w f args transport pullFrom = pullTo /\
  statPaths (trace (pullRun w f cmd args)) = [pullTo] /\
  Forall (fun e => pullTarget e = Some pullTo)
         (backendCalls (trace (pullRun w f cmd args))).
Proof.
  intros Hargs Hres name pullTo.
  assert (Hdest : destination w f args transport pullFrom = pullTo)
    by (apply destination_spelled; exact Hargs).
  destruct (prologue_observed w f cmd args h pullFrom _ Hres) as (Hs & Hb & _ & _).
  split; [|split; [exact Hdest|]].
  - intros localName locator ->. destruct Hres as (_ & Hlast & _).
    simpl in Hlast. congruence.
  - rewrite (pullRun_resolved w f cmd args h pullFrom _ Hres). rewrite Hdest in *.
    destruct (mayWrite w f pullTo); rewrite trace_pair.
    + rewrite statPaths_app, backendCalls_app, Hs, Hb.
      rewrite dispatch_statPaths. split; [reflexivity|].
      apply dispatch_targets.
    + rewrite Hs, Hb. split; [reflexivity|constructor].
Qed.

(** ** The switch on particular inputs *)

Lemma dispatch_conflict w f cmd ctx h transport pullFrom pullTo r :
  transport = LibraryProtocol \/ transport = EmptyString ->
  pullLibraryURI f <> EmptyString ->
  library_NormalizeLibraryRef w pullFrom = inl r ->
  library.Host r <> EmptyString ->
  dispatch w f cmd ctx h transport pullFrom pullTo
  = ([NormalizeLibraryRef pullFrom], Fatal conflictDiagnostic).
Proof.
  intros Ht Hu Hn Hh.
  apply String.eqb_neq in Hu, Hh.
  unfold dispatch, pullLibrary, bind, call, fatalf, ret.
  replace ((transport =? LibraryProtocol) || (transport =? ""))%string
    with true
    by (destruct Ht as [-> | ->]; reflexivity).
  rewrite Hn, Hu, Hh. reflexivity.
Qed.

Lemma dispatch_unsupported w f cmd ctx h transport pullFrom pullTo :
  unsupported w transport ->
  dispatch w f cmd ctx h transport pullFrom pullTo
  = ([OciIsSupported transport],
     Fatal ("Unsupported transport type: " ++ transport)).
Proof.
  intros (H0 & H1 & H2 & H3 & H4 & H5 & H6).
  apply String.eqb_neq in H0, H1, H2, H3, H4, H5.
  assert (H7 : (transport =? oci_IsSupported w transport)%string = false)
    by (apply String.eqb_neq; congruence).
  unfold dispatch, bind, call, fatalf.
  rewrite H0, H1, H2, H3, H4, H5. simpl. rewrite H7. reflexivity.
Qed.

(** C2, amended.  For every non-empty library endpoint override and every
    library reference whose normalized form has a non-empty host, the pull
    ends fatally, no backend is called and no library endpoint is ever
    chosen; the diagnostic is the one of the conflict whenever the run
    gets past the checks that come first in the code (cache handle,
    non-empty reference body, existence check of the destination). *)
Theorem C2_conflict_rejected w f cmd args pullFrom r :
  nth_error args (List.length args - 1) = Some pullFrom ->
  fst (uri_Split w pullFrom) = LibraryProtocol \/
    fst (uri_Split w pullFrom) = EmptyString ->
  pullLibraryURI f <> EmptyString ->
  library_NormalizeLibraryRef w pullFrom = inl r ->
  library.Host r <> EmptyString ->
  (exists msg, outcome (pullRun w f cmd args) = Fatal msg) /\
  backendCalls (trace (pullRun w f cmd args)) = [] /\
  libraryURIs (trace (pullRun w f cmd args)) = [] /\
  (forall h,
      resolves w f args h pullFrom (fst (uri_Split w pullFrom)) ->
      mayWrite w f (destination w f args (fst (uri_Split w pullFrom))
                      pullFrom) = true ->
      outcome (pullRun w f cmd args) = Fatal conflictDiagnostic).
Proof.
  intros Hlast Ht Hu Hn Hh.
  assert (Hres : forall h,
             resolves w f args h pullFrom (fst (uri_Split w pullFrom)) ->
             (exists msg, outcome (pullRun w f cmd args) = Fatal msg) /\
             backendCalls (trace (pullRun w f cmd args)) = [] /\
             libraryURIs (trace (pullRun w f cmd args)) = [] /\
             (mayWrite w f (destination w f args
                              (fst (uri_Split w pullFrom)) pullFrom) = true ->
              outcome (pullRun w f cmd args) = Fatal conflictDiagnostic)).
  { intros h Hres.
    destruct (prologue_observed w f cmd args h pullFrom _ Hres) as (_ & Hb & _ & Hl).
    rewrite (pullRun_resolved w f cmd args h pullFrom _ Hres).
    rewrite (dispatch_conflict w f cmd (cmd_Context w cmd) h _ pullFrom _ r Ht Hu Hn Hh).
    destruct (mayWrite w f _); rewrite !trace_pair, !outcome_pair;
      rewrite ?backendCalls_app, ?libraryURIs_app, Hb, Hl; simpl;
      repeat split; eauto; discriminate. }
  destruct (pullRun_kinds w f args)
    as [Hc | [(h & Hc & ->) | [(h & p & Hc & Hl & Hr) | (h & p & Hr)]]].
  - rewrite (pullRun_no_cache w f cmd args Hc). simpl.
    repeat split; eauto.
    intros h (Hc' & _). congruence.
  - discriminate Hlast.
  - rewrite (pullRun_bad_uri w f cmd args h p Hc Hl Hr). simpl.
    repeat split; eauto.
    intros h' (_ & Hl' & _ & Hr'). congruence.
  - assert (p = pullFrom) by (destruct Hr as (_ & Hl & _); congruence).
    subst p. destruct (Hres h Hr) as (H1 & H2 & H3 & H4).
    repeat split; auto.
Qed.

(** C7, amended.  For every locator whose classified transport is not
    empty and matches none of the supported transports, the pull ends
    fatally and no backend is called; the message names that exact
    transport string whenever the run gets past the checks that come
    first in the code (cache handle, non-empty reference body, existence
    check of the destination). *)
Theorem C7_unsupported_transport w f cmd args pullFrom :
  nth_error args (List.length args - 1) = Some pullFrom ->
  unsupported w (fst (uri_Split w pullFrom)) ->
  (exists msg, outcome (pullRun w f cmd args) = Fatal msg) /\
  backendCalls (trace (pullRun w f cmd args)) = [] /\
  (forall h,
      resolves w f args h pullFrom (fst (uri_Split w pullFrom)) ->
      mayWrite w f (destination w f args (fst (uri_Split w pullFrom))
                      pullFrom) = true ->
      outcome (pullRun w f cmd args)
      = Fatal ("Unsupported transport type: "
               ++ fst (uri_Split w pullFrom))) /\
  contains (fst (uri_Split w pullFrom))
    ("Unsupported transport type: " ++ fst (uri_Split w pullFrom)) = true.
Proof.
  intros Hlast Hun.
  enough (G : (exists msg, outcome (pullRun w f cmd args) = Fatal msg) /\
              backendCalls (trace (pullRun w f cmd args)) = [] /\
              (forall h,
                  resolves w f args h pullFrom (fst (uri_Split w pullFrom)) ->
                  mayWrite w f (destination w f args
                                  (fst (uri_Split w pullFrom)) pullFrom)
                  = true ->
                  outcome (pullRun w f cmd args)
                  = Fatal ("Unsupported transport type: "
                           ++ fst (uri_Split w pullFrom)))).
  { destruct G as (G1 & G2 & G3).
    split; [exact G1|]. split; [exact G2|]. split; [exact G3|].
    exact (contains_after "Unsupported transport type: "
             (fst (uri_Split w pullFrom))). }
  destruct (pullRun_kinds w f args)
    as [Hc | [(h & Hc & ->) | [(h & p & Hc & Hl & Hr) | (h & p & Hr)]]].
  - rewrite (pullRun_no_cache w f cmd args Hc). simpl.
    repeat split; eauto.
    intros h (Hc' & _). congruence.
  - discriminate Hlast.
  - rewrite (pullRun_bad_uri w f cmd args h p Hc Hl Hr). simpl.
    repeat split; eauto.
    intros h' (_ & Hl' & _ & Hr'). congruence.
  - assert (p = pullFrom) by (destruct Hr as (_ & Hl & _); congruence).
    subst p.
    destruct (prologue_observed w f cmd args h pullFrom _ Hr) as (_ & Hb & _ & _).
    rewrite (pullRun_resolved w f cmd args h pullFrom _ Hr).
    rewrite (dispatch_unsupported w f cmd (cmd_Context w cmd) h _ pullFrom _ Hun).
    destruct (mayWrite w f _); rewrite !trace_pair, !outcome_pair;
      rewrite ?backendCalls_app, Hb; simpl;
      repeat split; eauto; discriminate.
Qed.

(** C3.  For every transport: once the destination is resolved it is
    probed exactly once, whatever the probe answers and whether or not
    overwrite was requested.  When the resolved destination path exists
    and overwrite was not requested, the run ends fatally with the "file
    already exists" diagnostic naming the path, right after the probe and
    before any backend call; when overwrite was requested the run goes on
    into the switch on the transport. *)
Theorem C3_existing_destination w f cmd args h pullFrom transport :
  resolves w f args h pullFrom transport ->
  statPaths (trace (pullRun w f cmd args))
  = [destination w f args transport pullFrom] /\
  (os_Stat w (destination w f args transport pullFrom) = None ->
   (forceOverwrite f = false ->
    pullRun w f cmd args
    = (prologue w f cmd args pullFrom transport,
       Fatal ("Image file already exists: "
              ++ Quote w (destination w f args transport pullFrom)
              ++ " - will not overwrite")) /\
    contains "file already exists"
      ("Image file already exists: "
       ++ Quote w (destination w f args transport pullFrom)
       ++ " - will not overwrite") = true /\
    contains (Quote w (destination w f args transport pullFrom))
      ("Image file already exists: "
       ++ Quote w (destination w f args transport pullFrom)
       ++ " - will not overwrite") = true /\
    backendCalls (trace (pullRun w f cmd args)) = []) /\
   (forceOverwrite f = true ->
    pullRun w f cmd args
    = (prologue w f cmd args pullFrom transport
         ++ trace (dispatch w f cmd (cmd_Context w cmd) h transport pullFrom
                     (destination w f args transport pullFrom)),
       outcome (dispatch w f cmd (cmd_Context w cmd) h transport pullFrom
                  (destination w f args transport pullFrom))))).
Proof.
  intros Hres.
  destruct (prologue_observed w f cmd args h pullFrom transport Hres)
    as (Hs & Hb & _ & _).
  rewrite (pullRun_resolved w f cmd args h pullFrom transport Hres).
  split.
  - destruct (mayWrite w f _); rewrite trace_pair;
      rewrite ?statPaths_app, ?dispatch_statPaths, Hs; reflexivity.
  - intros Hstat. unfold mayWrite. rewrite Hstat. cbn [IsNotExist orb].
    split.
    + intros ->. rewrite trace_pair.
      split; [reflexivity|split; [|split]].
      * apply (contains_infix "Image " "file already exists").
      * apply (contains_infix "Image file already exists: ").
      * exact Hb.
    + intros ->. reflexivity.
Qed.

(** The run never looks at a probe result beyond [os.IsNotExist]. *)
Lemma pullRun_withStat w f cmd args stat stat' :
  (forall p, IsNotExist (stat p) = IsNotExist (stat' p)) ->
  pullRun (withStat w stat) f cmd args
  = pullRun (withStat w stat') f cmd args.
Proof.
  intros Hsame. unfold pullRun, bind, call, ret, fatalf, index; simpl.
  destruct (getCacheHandle w (disableCache f)); [|reflexivity].
  destruct (nth_error args (List.length args - 1)) as [pullFrom|];
    [|reflexivity]; simpl.
  destruct (uri_Split w pullFrom) as [transport ref].
  destruct (ref =? ""); [reflexivity|].
  change (resolveDestination (withStat w stat') f args transport pullFrom)
    with (resolveDestination (withStat w stat) f args transport pullFrom).
  destruct (resolveDestination (withStat w stat) f args transport pullFrom)
    as [tn [pullTo| |]]; try reflexivity.
  rewrite (Hsame pullTo).
  destruct (IsNotExist (stat' pullTo)), (forceOverwrite f); reflexivity.
Qed.

Lemma withStat_same w : withStat w (os_Stat w) = w.
Proof. destruct w; reflexivity. Qed.

Lemma asExisting_same stat p :
  IsNotExist (stat p) = IsNotExist (asExisting stat p).
Proof.
  unfold asExisting. destruct (IsNotExist (stat p)) eqn:E; [exact (eq_sym E)|].
  reflexivity.
Qed.

(** C9.  If the probe of the resolved destination returns an error other
    than "does not exist", the run is the one of a file system in which
    the path exists: it ends fatally with the "already exists" diagnostic
    unless overwrite was requested, and goes on into the switch on the
    transport if it was. *)
Theorem C9_probe_error_as_existing w f cmd args h pullFrom transport e :
  resolves w f args h pullFrom transport ->
  os_Stat w (destination w f args transport pullFrom) = Some e ->
  e <> ErrNotExist ->
  asExisting (os_Stat w) (destination w f args transport pullFrom) = None /\
  pullRun w f cmd args
  = pullRun (withStat w (asExisting (os_Stat w))) f cmd args /\
  (forceOverwrite f = false ->
   outcome (pullRun w f cmd args)
   = Fatal ("Image file already exists: "
            ++ Quote w (destination w f args transport pullFrom)
            ++ " - will not overwrite") /\
   backendCalls (trace (pullRun w f cmd args)) = []) /\
  (forceOverwrite f = true ->
   pullRun w f cmd args
   = (prologue w f cmd args pullFrom transport
        ++ trace (dispatch w f cmd (cmd_Context w cmd) h transport pullFrom
                    (destination w f args transport pullFrom)),
      outcome (dispatch w f cmd (cmd_Context w cmd) h transport pullFrom
                 (destination w f args transport pullFrom)))).
Proof.
  intros Hres Hstat He.
  assert (Hno : IsNotExist
                  (os_Stat w (destination w f args transport pullFrom))
                = false)
    by (rewrite Hstat; destruct e; simpl; congruence).
  split; [unfold asExisting; rewrite Hno; reflexivity|].
  split.
  - rewrite <- (withStat_same w) at 1.
    apply pullRun_withStat. intros p. apply asExisting_same.
  - destruct (prologue_observed w f cmd args h pullFrom transport Hres)
      as (_ & Hb & _ & _).
    rewrite (pullRun_resolved w f cmd args h pullFrom transport Hres).
    unfold mayWrite. rewrite Hno. cbn [orb].
    split; intros ->; rewrite ?trace_pair, ?outcome_pair; auto.
Qed.

(** C10.  The flag behind [--allow-unsigned] and [--allow-unauthenticated]
    is not read: a run is the same for both of its values.  In particular
    a library pull that comes back with the unsigned sentinel prints the
    "Skipping container verification" warning and returns, whatever the
    flag says. *)
Theorem C10_unsigned_flag_unread w f cmd args b :
  pullRun w (withUnauthenticatedPull b f) cmd args = pullRun w f cmd args /\
  (forall ctx c pullTo ref opts,
      In (LibraryPullToFile ctx c pullTo ref opts)
         (backendCalls
            (trace (pullRun w (withUnauthenticatedPull b f) cmd args))) ->
      library_PullToFile w ctx c pullTo ref opts
      = Some ErrLibraryPullUnsigned ->
      outcome (pullRun w (withUnauthenticatedPull b f) cmd args)
      = Return tt /\
      warnings (trace (pullRun w (withUnauthenticatedPull b f) cmd args))
      = ["Skipping container verification"%string]).
Proof.
  assert (Hsame : pullRun w (withUnauthenticatedPull b f) cmd args
                  = pullRun w f cmd args) by reflexivity.
  split; [exact Hsame|].
  rewrite Hsame. intros ctx c pullTo ref opts Hin Hsoft.
  destruct (pullRun_kinds w f args)
    as [Hc | [(h & Hc & ->) | [(h & p & Hc & Hl & Hr) | (h & p & Hr)]]].
  - rewrite (pullRun_no_cache w f cmd args Hc) in Hin. destruct Hin.
  - rewrite (pullRun_no_args w f cmd h Hc) in Hin. destruct Hin.
  - rewrite (pullRun_bad_uri w f cmd args h p Hc Hl Hr) in Hin.
    destruct Hin.
  - destruct (prologue_observed w f cmd args h p _ Hr)
      as (_ & Hb & Hw & _).
    rewrite (pullRun_resolved w f cmd args h p _ Hr) in *.
    destruct (mayWrite w f _); rewrite trace_pair in *;
      rewrite ?outcome_pair; [|rewrite Hb in Hin; destruct Hin].
    rewrite backendCalls_app, Hb in Hin. simpl in Hin.
    apply dispatch_reported in Hin. unfold reported in Hin.
    simpl in Hin. rewrite Hsoft in Hin. simpl in Hin.
    rewrite warnings_app, Hw. exact Hin.
Qed.

(** The text of the underlying error is part of every failure message. *)
Lemma failureMessage_has_error w e err :
  isBackend e = true ->
  contains (Error w err) (failureMessage w e err) = true.
Proof.
  destruct e; intros H; try discriminate H; unfold failureMessage.
  - exact (contains_after "While pulling library image: " (Error w err)).
  - exact (contains_infix "While pulling shub image: " (Error w err) nl).
  - exact (contains_after "While pulling image from oci registry: "
             (Error w err)).
  - exact (contains_infix "While pulling from image from http(s): "
             (Error w err) nl).
  - exact (contains_after "While making image from oci registry: "
             (Error w err)).
Qed.

(** C4, amended.  For every backend call of a run and what it came back
    with: an error other than the unsigned sentinel of the library backend
    ends the run fatally, with a message made of the fixed text of the
    branch followed by the text of the error (the text names "library",
    "shub" or "http(s)", and "oci registry" for both the oras and the OCI
    branch), and without a warning; the unsigned sentinel, on the library
    branch only, is turned into the one warning "Skipping container
    verification" and the run returns; no error means the run returns
    without any message. *)
Theorem C4_backend_result_reported w f cmd args e :
  In e (backendCalls (trace (pullRun w f cmd args))) ->
  match backendResult w e with
  | Some None =>
    outcome (pullRun w f cmd args) = Return tt /\
    warnings (trace (pullRun w f cmd args)) = []
  | Some (Some err) =>
    if isSoftFailure e err then
      outcome (pullRun w f cmd args) = Return tt /\
      warnings (trace (pullRun w f cmd args))
      = ["Skipping container verification"%string]
    else
      outcome (pullRun w f cmd args) = Fatal (failureMessage w e err) /\
      contains (Error w err) (failureMessage w e err) = true /\
      warnings (trace (pullRun w f cmd args)) = []
  | None => False
  end.
Proof.
  intros Hin.
  assert (Hback : isBackend e = true)
    by (apply filter_In in Hin; tauto).
  enough (Hrep : reported w e (pullRun w f cmd args)).
  { unfold reported in Hrep.
    destruct (backendResult w e) as [[err|]|]; auto.
    destruct (isSoftFailure e err); auto.
    destruct Hrep as [H1 H2]. repeat split; auto.
    apply failureMessage_has_error. exact Hback. }
  destruct (pullRun_kinds w f args)
    as [Hc | [(h & Hc & ->) | [(h & p & Hc & Hl & Hr) | (h & p & Hr)]]].
  - rewrite (pullRun_no_cache w f cmd args Hc) in Hin. destruct Hin.
  - rewrite (pullRun_no_args w f cmd h Hc) in Hin. destruct Hin.
  - rewrite (pullRun_bad_uri w f cmd args h p Hc Hl Hr) in Hin.
    destruct Hin.
  - destruct (prologue_observed w f cmd args h p _ Hr)
      as (_ & Hb & Hw & _).
    rewrite (pullRun_resolved w f cmd args h p _ Hr) in *.
    destruct (mayWrite w f _); rewrite trace_pair in Hin;
      [|rewrite Hb in Hin; destruct Hin].
    rewrite backendCalls_app, Hb in Hin. simpl in Hin.
    apply dispatch_reported in Hin. unfold reported in *.
    rewrite trace_pair, outcome_pair, warnings_app, Hw. exact Hin.
Qed.

(** The endpoint chosen on the library branch. *)
Lemma dispatch_library_endpoint w f cmd ctx h transport pullFrom pullTo r :
  transport = LibraryProtocol \/ transport = EmptyString ->
  library_NormalizeLibraryRef w pullFrom = inl r ->
  pullLibraryURI f = EmptyString \/ library.Host r = EmptyString ->
  libraryURIs (trace (dispatch w f cmd ctx h transport pullFrom pullTo))
  = [if negb (pullLibraryURI f =? "") then pullLibraryURI f
     else if negb (library.Host r =? "") then
            ((if noHTTPS f then "http://" else "https://")
             ++ library.Host r)%string
          else EmptyString] /\
  Forall (eq (currentRemoteEndpoint f))
         (libraryEndpoints
            (trace (dispatch w f cmd ctx h transport pullFrom pullTo))).
Proof.
  intros Ht Hn Hno.
  assert (Hc : negb (pullLibraryURI f =? "") && negb (library.Host r =? "")
               = false).
  { destruct Hno as [-> | ->]; simpl; [reflexivity|].
    apply andb_false_r. }
  unfold dispatch, pullLibrary.
  replace ((transport =? LibraryProtocol) || (transport =? ""))%string
    with true
    by (destruct Ht as [-> | ->]; reflexivity).
  unfold bind, call, ret, fatalf, warningf, trace. rewrite Hn, Hc.
  cbn [fst snd app].
  destruct (negb (pullLibraryURI f =? "")), (negb (library.Host r =? "")),
    (noHTTPS f);
    cbn [String.append];
    repeat match goal with
           | |- context [match ?x with _ => _ end] =>
             plain x; destruct x eqn:?
           end;
    simpl; split; try reflexivity; repeat constructor.
Qed.

(** C6.  When the library transport is selected (named or defaulted from
    an unspecified one), the reference normalizes and there is no
    conflict, the URI handed to the library client configuration is: the
    override if it is not empty; otherwise the host of the normalized
    reference behind [http://] when no-HTTPS is set and [https://] when it
    is not; otherwise the empty URI, which leaves the configured default
    in place.  The endpoint in the pull options is the configured one in
    every case. *)
Theorem C6_library_endpoint w f cmd args h pullFrom transport r :
  resolves w f args h pullFrom transport ->
  mayWrite w f (destination w f args transport pullFrom) = true ->
  transport = LibraryProtocol \/ transport = EmptyString ->
  library_NormalizeLibraryRef w pullFrom = inl r ->
  pullLibraryURI f = EmptyString \/ library.Host r = EmptyString ->
  libraryURIs (trace (pullRun w f cmd args))
  = [if negb (pullLibraryURI f =? "") then pullLibraryURI f
     else if negb (library.Host r =? "") then
            ((if noHTTPS f then "http://" else "https://")
             ++ library.Host r)%string
          else EmptyString] /\
  Forall (eq (currentRemoteEndpoint f))
         (libraryEndpoints (trace (pullRun w f cmd args))).
Proof.
  intros Hres Hmay Ht Hn Hno.
  destruct (dispatch_library_endpoint w f cmd (cmd_Context w cmd) h
              transport pullFrom
              (destination w f args transport pullFrom) r Ht Hn Hno)
    as [Hu He].
  destruct (prologue_observed w f cmd args h pullFrom transport Hres)
    as (_ & _ & _ & Hl).
  rewrite (pullRun_resolved w f cmd args h pullFrom transport Hres), Hmay.
  rewrite trace_pair, libraryURIs_app, Hl, Hu.
  split; [reflexivity|].
  unfold prologue.
  destruct (resolveDestination_returns w f args transport pullFrom
              (resolves_args w f args h pullFrom transport Hres))
    as [_ Hnaming].
  apply naming_calls_silent in Hnaming as (_ & _ & _ & _ & Hle & _).
  cbn [app libraryEndpoints].
  rewrite <- app_assoc, libraryEndpoints_app, Hle. exact He.
Qed.

(** C8.  With no name override and a single positional argument, the name
    is derived: for a locator without transport, from the locator with
    [library://] put in front, which is the name a locator rewritten that
    way gets; for a locator with a transport, from the locator as it
    is. *)
Theorem C8_derived_name w f cmd h pullFrom transport :
  pullImageName f = EmptyString ->
  resolves w f [pullFrom] h pullFrom transport ->
  let under name :=
    if negb (pullDir f =? "") then filepath_Join w (pullDir f) name
    else name in
  statPaths (trace (pullRun w f cmd [pullFrom]))
  = [destination w f [pullFrom] transport pullFrom] /\
  (transport = EmptyString ->
   destination w f [pullFrom] transport pullFrom
   = under (uri_GetName w ("library://" ++ pullFrom)) /\
   forall transport', transport' <> EmptyString ->
     destination w f [pullFrom] transport pullFrom
     = destination w f [("library://" ++ pullFrom)%string] transport'
         ("library://" ++ pullFrom)) /\
  (transport <> EmptyString ->
   destination w f [pullFrom] transport pullFrom
   = under (uri_GetName w pullFrom)).
Proof.
  intros Hname Hres under.
  split.
  - destruct (prologue_observed w f cmd [pullFrom] h pullFrom transport Hres)
      as (Hs & _).
    rewrite (pullRun_resolved w f cmd [pullFrom] h pullFrom transport Hres).
    destruct (mayWrite w f _); rewrite trace_pair;
      rewrite ?statPaths_app, ?dispatch_statPaths, Hs; reflexivity.
  - rewrite destination_spelled by reflexivity. rewrite Hname.
    subst under. cbv beta.
    split.
    + intros ->. split; [reflexivity|].
      intros transport' Hne. apply String.eqb_neq in Hne.
      rewrite destination_spelled by reflexivity.
      rewrite Hname, Hne. reflexivity.
    + intros Hne. apply String.eqb_neq in Hne. rewrite Hne. reflexivity.
Qed.

(** ** The order of the calls *)

Lemma ranks_app t1 t2 : ranks (t1 ++ t2) = ranks t1 ++ ranks t2.
Proof. apply map_app. Qed.

Lemma occurrences_app s t1 t2 :
  occurrences s (t1 ++ t2) = occurrences s t1 + occurrences s t2.
Proof. unfold occurrences. rewrite filter_app. apply length_app. Qed.

Lemma naming_occurrences s t :
  rank s <> 3 ->
  Forall (fun e => stepOf e = ResolveDestination) t ->
  occurrences s t = 0.
Proof.
  intros Hs. induction 1 as [|e t He _ IH]; [reflexivity|].
  unfold occurrences in *. cbn [filter]. unfold isStep at 1.
  rewrite He. change (rank ResolveDestination) with 3.
  destruct (Nat.eqb 3 (rank s)) eqn:E; [|exact IH].
  apply Nat.eqb_eq in E. congruence.
Qed.

Lemma dispatch_occurrences w f cmd ctx h transport pullFrom pullTo :
  occurrences AcquireCache
    (trace (dispatch w f cmd ctx h transport pullFrom pullTo)) = 0 /\
  occurrences Classify
    (trace (dispatch w f cmd ctx h transport pullFrom pullTo)) = 0 /\
  occurrences ProbeDestination
    (trace (dispatch w f cmd ctx h transport pullFrom pullTo)) = 0.
Proof. expose_dispatch. split_paths; repeat split; reflexivity. Qed.

Lemma dispatch_routed w f cmd ctx h transport pullFrom pullTo e :
  In e (backendCalls
          (trace (dispatch w f cmd ctx h transport pullFrom pullTo))) ->
  kindOf e = selects w transport.
Proof.
  unfold selects. expose_dispatch.
  split_paths; intros Hin; simpl in Hin; try contradiction;
    destruct Hin as [<-|[]]; reflexivity.
Qed.

Lemma dispatch_exactly_one w f cmd ctx h transport pullFrom pullTo :
  List.length
    (backendCalls (trace (dispatch w f cmd ctx h transport pullFrom pullTo)))
  = if prepared w f cmd transport pullFrom then 1 else 0.
Proof.
  unfold prepared, selects, chosenLibraryURI. expose_dispatch.
  split_paths; reflexivity.
Qed.

Lemma prologue_ordered w f cmd args h pullFrom transport l :
  resolves w f args h pullFrom transport ->
  ascendingFrom 5 l = true ->
  ascending (ranks (prologue w f cmd args pullFrom transport) ++ l) = true /\
  occurrences AcquireCache (prologue w f cmd args pullFrom transport) = 1 /\
  occurrences Classify (prologue w f cmd args pullFrom transport) = 1 /\
  occurrences ProbeDestination
    (prologue w f cmd args pullFrom transport) = 1.
Proof.
  intros Hres Hl.
  destruct (resolveDestination_returns w f args transport pullFrom
              (resolves_args w f args h pullFrom transport Hres))
    as [_ Hnaming].
  pose proof (naming_calls_silent _ Hnaming) as (_ & _ & _ & _ & _ & Hr).
  unfold prologue.
  repeat split.
  - rewrite !ranks_app, Hr, <- !app_assoc.
    cbn [ranks map app stepOf rank ascending ascendingFrom Nat.leb andb].
    apply ascendingFrom_weaken with (hi := 3); [lia|].
    apply ascendingFrom_repeat.
    cbn [ascendingFrom Nat.leb andb].
    apply ascendingFrom_weaken with (hi := 5); [lia|exact Hl].
  - rewrite !occurrences_app.
    rewrite (naming_occurrences AcquireCache _ ltac:(discriminate) Hnaming).
    reflexivity.
  - rewrite !occurrences_app.
    rewrite (naming_occurrences Classify _ ltac:(discriminate) Hnaming).
    reflexivity.
  - rewrite !occurrences_app.
    rewrite (naming_occurrences ProbeDestination _ ltac:(discriminate) Hnaming).
    reflexivity.
Qed.

(** C5, amended.  In every invocation the calls come in the order of the
    code: the command context, the cache handle, the classification of the
    locator, the resolution of the destination, its probe, and only then
    the normalization of a library reference, the preparation of the
    branch and its backend call, and a warning last.  A run that passes
    the checks before the switch calls exactly one backend, the one its
    transport selects, when the selected case gets as far as its backend
    call, and none when it does not; no run calls more than one, and a
    backend is called only after exactly one acquisition of the cache
    handle, one classification and one probe of the destination, which let
    the run through. *)
Theorem C5_order_of_steps w f cmd args :
  ascending (ranks (trace (pullRun w f cmd args))) = true /\
  List.length (backendCalls (trace (pullRun w f cmd args))) <= 1 /\
  (backendCalls (trace (pullRun w f cmd args)) <> [] ->
   occurrences AcquireCache (trace (pullRun w f cmd args)) = 1 /\
   occurrences Classify (trace (pullRun w f cmd args)) = 1 /\
   occurrences ProbeDestination (trace (pullRun w f cmd args)) = 1 /\
   exists pullTo,
     statPaths (trace (pullRun w f cmd args)) = [pullTo] /\
     mayWrite w f pullTo = true) /\
  (forall h pullFrom transport,
      resolves w f args h pullFrom transport ->
      mayWrite w f (destination w f args transport pullFrom) = true ->
      List.length (backendCalls (trace (pullRun w f cmd args)))
      = (if prepared w f cmd transport pullFrom then 1 else 0) /\
      forall e,
        In e (backendCalls (trace (pullRun w f cmd args))) ->
        kindOf e = selects w transport).
Proof.
  assert (Hone : forall h pullFrom transport,
             resolves w f args h pullFrom transport ->
             mayWrite w f (destination w f args transport pullFrom) = true ->
             List.length (backendCalls (trace (pullRun w f cmd args)))
             = (if prepared w f cmd transport pullFrom then 1 else 0) /\
             forall e,
               In e (backendCalls (trace (pullRun w f cmd args))) ->
               kindOf e = selects w transport).
  { intros h pullFrom transport Hres Hmay.
    destruct (prologue_observed w f cmd args h pullFrom transport Hres)
      as (_ & Hb & _ & _).
    rewrite (pullRun_resolved w f cmd args h pullFrom transport Hres), Hmay.
    rewrite trace_pair, backendCalls_app, Hb. cbn [app].
    split; [apply dispatch_exactly_one|].
    intros e Hin. exact (dispatch_routed _ _ _ _ _ _ _ _ _ Hin). }
  rewrite <- !and_assoc. split; [|exact Hone]. rewrite !and_assoc.
  clear Hone.
  destruct (pullRun_kinds w f args)
    as [Hc | [(h & Hc & ->) | [(h & p & Hc & Hl & Hr) | (h & p & Hr)]]].
  - rewrite (pullRun_no_cache w f cmd args Hc), trace_pair.
    split; [reflexivity|split; [simpl; lia|]].
    intros H; exfalso; apply H; reflexivity.
  - rewrite (pullRun_no_args w f cmd h Hc), trace_pair.
    split; [reflexivity|split; [simpl; lia|]].
    intros H; exfalso; apply H; reflexivity.
  - rewrite (pullRun_bad_uri w f cmd args h p Hc Hl Hr), trace_pair.
    split; [reflexivity|split; [simpl; lia|]].
    intros H; exfalso; apply H; reflexivity.
  - set (transport := fst (uri_Split w p)) in *.
    set (pullTo := destination w f args transport p).
    destruct (prologue_observed w f cmd args h p transport Hr)
      as (Hs & Hb & _ & _).
    rewrite (pullRun_resolved w f cmd args h p transport Hr).
    fold pullTo.
    destruct (mayWrite w f pullTo) eqn:Hmay; rewrite trace_pair.
    + pose proof (dispatch_ascending w f cmd (cmd_Context w cmd) h
                    transport p pullTo) as Hasc.
      destruct (prologue_ordered w f cmd args h p transport _ Hr Hasc)
        as (Ho & H1 & H2 & H3).
      destruct (dispatch_occurrences w f cmd (cmd_Context w cmd) h
                  transport p pullTo) as (D1 & D2 & D3).
      rewrite ranks_app, backendCalls_app, Hb, !occurrences_app,
        statPaths_app, dispatch_statPaths, Hs, H1, H2, H3, D1, D2, D3.
      split; [exact Ho|]. split; [apply dispatch_at_most_one|].
      intros _. repeat split. exists pullTo. split; [reflexivity|exact Hmay].
    + destruct (prologue_ordered w f cmd args h p transport [] Hr eq_refl)
        as (Ho & _).
      rewrite app_nil_r in Ho. rewrite Hb.
      split; [exact Ho|]. split; [simpl; lia|]. congruence.
Qed.

(** ** Further properties of a run *)

(** Calls up to the probe are no backend call, no warning, no question to
    [oci.IsSupported], no normalization and no client configuration. *)
Lemma early_calls_silent t :
  Forall (fun e => rank (stepOf e) <= 4) t ->
  backendCalls t = [] /\ warnings t = [] /\ supportQueries t = [] /\
  normalizations t = [] /\ libraryURIs t = [].
Proof.
  induction 1 as [|e t He _ IH]; [repeat split|].
  destruct IH as (H1 & H2 & H3 & H4 & H5).
  destruct e; simpl in He; try lia; simpl; auto 10.
Qed.

Lemma prologue_early w f cmd args h pullFrom transport :
  resolves w f args h pullFrom transport ->
  Forall (fun e => rank (stepOf e) <= 4)
         (prologue w f cmd args pullFrom transport).
Proof.
  intros Hres.
  destruct (resolveDestination_returns w f args transport pullFrom
              (resolves_args w f args h pullFrom transport Hres))
    as [_ Hnaming].
  unfold prologue. repeat (apply Forall_cons; [simpl; lia|]).
  apply Forall_app. split.
  - eapply Forall_impl; [|exact Hnaming]. intros e ->. simpl. lia.
  - repeat constructor.
Qed.

(** Every run either stops at or before the probe, without returning, or
    goes through the prologue into the switch. *)
Lemma pullRun_shape w f cmd args :
  (Forall (fun e => rank (stepOf e) <= 4) (trace (pullRun w f cmd args)) /\
   outcome (pullRun w f cmd args) <> Return tt) \/
  (exists h pullFrom,
      resolves w f args h pullFrom (fst (uri_Split w pullFrom)) /\
      mayWrite w f (destination w f args (fst (uri_Split w pullFrom))
                      pullFrom) = true /\
      pullRun w f cmd args
      = (prologue w f cmd args pullFrom (fst (uri_Split w pullFrom))
           ++ trace (dispatch w f cmd (cmd_Context w cmd) h
                       (fst (uri_Split w pullFrom)) pullFrom
                       (destination w f args (fst (uri_Split w pullFrom))
                          pullFrom)),
         outcome (dispatch w f cmd (cmd_Context w cmd) h
                    (fst (uri_Split w pullFrom)) pullFrom
                    (destination w f args (fst (uri_Split w pullFrom))
                       pullFrom)))).
Proof.
  destruct (pullRun_kinds w f args)
    as [Hc | [(h & Hc & ->) | [(h & p & Hc & Hl & Hr) | (h & p & Hr)]]].
  - left. rewrite (pullRun_no_cache w f cmd args Hc).
    split; [repeat constructor; simpl; lia|discriminate].
  - left. rewrite (pullRun_no_args w f cmd h Hc).
    split; [repeat constructor; simpl; lia|discriminate].
  - left. rewrite (pullRun_bad_uri w f cmd args h p Hc Hl Hr).
    split; [repeat constructor; simpl; lia|discriminate].
  - pose proof (pullRun_resolved w f cmd args h p _ Hr) as Hrun.
    destruct (mayWrite w f _) eqn:Hmay.
    + right. exists h, p. auto.
    + left. rewrite Hrun. split; [|discriminate].
      rewrite trace_pair. exact (prologue_early w f cmd args h p _ Hr).
Qed.

Lemma supportQueries_app t1 t2 :
  supportQueries (t1 ++ t2) = supportQueries t1 ++ supportQueries t2.
Proof.
  induction t1 as [|e t1 IH]; simpl; [reflexivity|].
  destruct e; simpl; rewrite IH; reflexivity.
Qed.

Lemma normalizations_app t1 t2 :
  normalizations (t1 ++ t2) = normalizations t1 ++ normalizations t2.
Proof.
  induction t1 as [|e t1 IH]; simpl; [reflexivity|].
  destruct e; simpl; rewrite IH; reflexivity.
Qed.

(** *** The switch *)

Lemma dispatch_never_panics w f cmd ctx h transport pullFrom pullTo :
  outcome (dispatch w f cmd ctx h transport pullFrom pullTo) <> Panic.
Proof. expose_dispatch. split_paths; discriminate. Qed.

Lemma dispatch_returns w f cmd ctx h transport pullFrom pullTo :
  outcome (dispatch w f cmd ctx h transport pullFrom pullTo) = Return tt ->
  exists e,
    backendCalls (trace (dispatch w f cmd ctx h transport pullFrom pullTo))
    = [e] /\
    (backendResult w e = Some None \/
     backendResult w e = Some (Some ErrLibraryPullUnsigned) /\
     kindOf e = Some LibraryBackend).
Proof.
  expose_dispatch.
  split_paths; intros Hret; try discriminate Hret;
    (eexists; split; [reflexivity|]); simpl;
    repeat match goal with
           | H : _ = Some _ |- _ => rewrite H
           | H : _ = None |- _ => rewrite H
           end;
    auto;
    match goal with
    | |- Some (Some ?e) = _ \/ _ =>
      destruct e; simpl in *; [auto|congruence]
    end.
Qed.

Lemma dispatch_queries w f cmd ctx h transport pullFrom pullTo :
  supportQueries (trace (dispatch w f cmd ctx h transport pullFrom pullTo))
  = if isLiteralTransport transport then [] else [transport].
Proof.
  unfold isLiteralTransport. expose_dispatch.
  destruct ((transport =? LibraryProtocol) || (transport =? ""))%string;
    [cbn [orb]; split_paths; reflexivity|].
  destruct (transport =? ShubProtocol)%string;
    [cbn [orb]; split_paths; reflexivity|].
  destruct (transport =? OrasProtocol)%string;
    [cbn [orb]; split_paths; reflexivity|].
  destruct ((transport =? HTTPProtocol) || (transport =? HTTPSProtocol))%string
    eqn:E.
  - apply orb_true_iff in E as [-> | ->]; cbn [orb];
      rewrite ?orb_true_r; split_paths; reflexivity.
  - apply orb_false_iff in E as [-> ->]. cbn [orb].
    split_paths; reflexivity.
Qed.

Lemma dispatch_normalizations w f cmd ctx h transport pullFrom pullTo :
  normalizations (trace (dispatch w f cmd ctx h transport pullFrom pullTo))
  = if (transport =? LibraryProtocol) || (transport =? "") then [pullFrom]
    else [].
Proof. expose_dispatch. split_paths; reflexivity. Qed.

Lemma prologue_silent w f cmd args h pullFrom transport :
  resolves w f args h pullFrom transport ->
  backendCalls (prologue w f cmd args pullFrom transport) = [] /\
  warnings (prologue w f cmd args pullFrom transport) = [] /\
  supportQueries (prologue w f cmd args pullFrom transport) = [] /\
  normalizations (prologue w f cmd args pullFrom transport) = [] /\
  libraryURIs (prologue w f cmd args pullFrom transport) = [].
Proof.
  intros Hres. apply early_calls_silent.
  exact (prologue_early w f cmd args h pullFrom transport Hres).
Qed.

Lemma resolves_last w f args h pullFrom transport p :
  resolves w f args h pullFrom transport ->
  nth_error args (List.length args - 1) = Some p ->
  p = pullFrom.
Proof. intros (_ & Hl & _) Hp. congruence. Qed.

(** X1.  [pullRun] panics exactly when it is given no positional argument
    and the cache handle was obtained: the index [len(args)-1] is then out
    of range.  With the one or two arguments cobra lets through it never
    panics. *)
Theorem pullRun_panics_only_without_args w f cmd args :
  (outcome (pullRun w f cmd args) = Panic <->
   args = [] /\ getCacheHandle w (disableCache f) <> None) /\
  (RangeArgs 1 2 args = true -> outcome (pullRun w f cmd args) <> Panic).
Proof.
  assert (Hiff : outcome (pullRun w f cmd args) = Panic <->
                 args = [] /\ getCacheHandle w (disableCache f) <> None).
  { destruct (pullRun_kinds w f args)
      as [Hc | [(h & Hc & ->) | [(h & p & Hc & Hl & Hr) | (h & p & Hr)]]].
    - rewrite (pullRun_no_cache w f cmd args Hc), outcome_pair.
      split; [discriminate|]. intros [_ H]. contradiction.
    - rewrite (pullRun_no_args w f cmd h Hc), outcome_pair.
      split; [|reflexivity]. intros _. split; [reflexivity|congruence].
    - rewrite (pullRun_bad_uri w f cmd args h p Hc Hl Hr), outcome_pair.
      split; [discriminate|]. intros [-> _]. discriminate Hl.
    - pose proof (resolves_args w f args h p _ Hr) as Hne.
      rewrite (pullRun_resolved w f cmd args h p _ Hr).
      destruct (mayWrite w f _); rewrite outcome_pair.
      + split; [|intros [E _]; contradiction].
        intros E. exfalso. exact (dispatch_never_panics _ _ _ _ _ _ _ _ E).
      + split; [discriminate|]. intros [E _]. contradiction. }
  split; [exact Hiff|].
  intros Hargs E. apply Hiff in E as [-> _]. discriminate Hargs.
Qed.

(** X2.  Whatever backend a run calls is the one the switch selects for
    the transport of the last argument: the library backend for [library]
    and for no transport, the hub backend for [shub], the oras backend for
    [oras], the net backend for [http] and [https], and the OCI backend
    only for a transport that is none of these and that [oci.IsSupported]
    returns unchanged. *)
Theorem backend_follows_transport w f cmd args pullFrom e :
  nth_error args (List.length args - 1) = Some pullFrom ->
  In e (backendCalls (trace (pullRun w f cmd args))) ->
  kindOf e = selects w (fst (uri_Split w pullFrom)).
Proof.
  intros Hlast Hin.
  destruct (pullRun_shape w f cmd args)
    as [[Hearly _] | (h & p & Hr & _ & Hrun)].
  - apply early_calls_silent in Hearly as (Hb & _).
    rewrite Hb in Hin. destruct Hin.
  - assert (pullFrom = p) by (eapply resolves_last; eauto). subst p.
    destruct (prologue_silent w f cmd args h pullFrom _ Hr) as (Hb & _).
    rewrite Hrun, trace_pair, backendCalls_app, Hb in Hin.
    exact (dispatch_routed _ _ _ _ _ _ _ _ _ Hin).
Qed.

(** X3.  [oci.IsSupported] is asked at most once in a run, about the
    transport of the last argument, and only when that transport is none of
    the literal cases of the switch (library, none, shub, oras, http,
    https): a literal case wins whatever [oci.IsSupported] would answer. *)
Theorem literal_cases_come_first w f cmd args :
  List.length (supportQueries (trace (pullRun w f cmd args))) <= 1 /\
  (forall q,
      In q (supportQueries (trace (pullRun w f cmd args))) ->
      nth_error args (List.length args - 1) <> None /\
      (forall pullFrom,
          nth_error args (List.length args - 1) = Some pullFrom ->
          q = fst (uri_Split w pullFrom)) /\
      isLiteralTransport q = false).
Proof.
  destruct (pullRun_shape w f cmd args)
    as [[Hearly _] | (h & p & Hr & _ & Hrun)].
  - apply early_calls_silent in Hearly as (_ & _ & Hq & _).
    rewrite Hq. split; [simpl; lia|]. intros q [].
  - destruct (prologue_silent w f cmd args h p _ Hr) as (_ & _ & Hq & _).
    rewrite Hrun, trace_pair, supportQueries_app, Hq, dispatch_queries.
    destruct (isLiteralTransport (fst (uri_Split w p))) eqn:E;
      (split; [simpl; lia|]); intros q Hin; [destruct Hin|].
    destruct Hin as [<-|[]].
    split; [|split; [|exact E]].
    + destruct Hr as (_ & Hl & _). congruence.
    + intros pullFrom Hlast.
      rewrite (resolves_last w f args h p _ pullFrom Hr Hlast). reflexivity.
Qed.

(** X4.  A run returns only after exactly one backend call, and that call
    came back without error or, from the library backend, with the unsigned
    sentinel: every other way through [pullRun] ends in [sylog.Fatalf]. *)
Theorem returns_after_one_backend_call w f cmd args :
  outcome (pullRun w f cmd args) = Return tt ->
  exists e,
    backendCalls (trace (pullRun w f cmd args)) = [e] /\
    (backendResult w e = Some None \/
     backendResult w e = Some (Some ErrLibraryPullUnsigned) /\
     kindOf e = Some LibraryBackend).
Proof.
  intros Hret.
  destruct (pullRun_shape w f cmd args)
    as [[_ Hno] | (h & p & Hr & _ & Hrun)]; [contradiction|].
  destruct (prologue_silent w f cmd args h p _ Hr) as (Hb & _).
  rewrite Hrun, outcome_pair in Hret.
  destruct (dispatch_returns _ _ _ _ _ _ _ _ Hret) as (e & He & Hres).
  exists e. rewrite Hrun, trace_pair, backendCalls_app, Hb, He. auto.
Qed.

Lemma dispatch_warns w f cmd ctx h transport pullFrom pullTo :
  warnings (trace (dispatch w f cmd ctx h transport pullFrom pullTo)) = [] \/
  warnings (trace (dispatch w f cmd ctx h transport pullFrom pullTo))
  = ["Skipping container verification"%string] /\
  outcome (dispatch w f cmd ctx h transport pullFrom pullTo) = Return tt /\
  exists e,
    backendCalls (trace (dispatch w f cmd ctx h transport pullFrom pullTo))
    = [e] /\
    kindOf e = Some LibraryBackend /\
    backendResult w e = Some (Some ErrLibraryPullUnsigned).
Proof.
  expose_dispatch.
  split_paths; try (left; reflexivity);
    right; repeat split; eexists; repeat split; simpl;
    match goal with
    | H : library_PullToFile _ _ _ _ _ _ = Some ?e |- _ =>
      rewrite H; destruct e; simpl in *; congruence
    end.
Qed.

(** X5.  The only warning a run ever prints is "Skipping container
    verification", at most once, and only in a run that returns after its
    one backend call, to the library backend, came back with the unsigned
    sentinel. *)
Theorem warning_only_for_unsigned_library_pull w f cmd args :
  warnings (trace (pullRun w f cmd args)) = [] \/
  warnings (trace (pullRun w f cmd args))
  = ["Skipping container verification"%string] /\
  outcome (pullRun w f cmd args) = Return tt /\
  exists e,
    backendCalls (trace (pullRun w f cmd args)) = [e] /\
    kindOf e = Some LibraryBackend /\
    backendResult w e = Some (Some ErrLibraryPullUnsigned).
Proof.
  destruct (pullRun_shape w f cmd args)
    as [[Hearly _] | (h & p & Hr & _ & Hrun)].
  - left. apply early_calls_silent in Hearly. tauto.
  - destruct (prologue_silent w f cmd args h p _ Hr) as (Hb & Hw & _).
    rewrite Hrun, trace_pair, outcome_pair, warnings_app, backendCalls_app,
      Hb, Hw.
    exact (dispatch_warns _ _ _ _ _ _ _ _).
Qed.

(** X6.  When the cache provider returns no handle the run ends at once
    with "Failed to create an image cache handle": the locator is not
    classified, no path is probed and no backend is called, whatever the
    arguments are. *)
Theorem no_cache_handle_stops_first w f cmd args :
  getCacheHandle w (disableCache f) = None ->
  outcome (pullRun w f cmd args)
  = Fatal "Failed to create an image cache handle" /\
  classifications (trace (pullRun w f cmd args)) = [] /\
  statPaths (trace (pullRun w f cmd args)) = [] /\
  backendCalls (trace (pullRun w f cmd args)) = [].
Proof.
  intros Hc. rewrite (pullRun_no_cache w f cmd args Hc).
  repeat split.
Qed.

(** X7.  Once the cache handle is obtained, a locator whose reference body
    is empty is refused with "Bad URI" and the locator, before a name is
    derived, a path is probed or a backend is called, whatever its
    transport and whatever the other options. *)
Theorem empty_reference_refused w f cmd args h pullFrom :
  getCacheHandle w (disableCache f) = Some h ->
  nth_error args (List.length args - 1) = Some pullFrom ->
  snd (uri_Split w pullFrom) = EmptyString ->
  outcome (pullRun w f cmd args) = Fatal ("Bad URI " ++ pullFrom) /\
  classifications (trace (pullRun w f cmd args)) = [pullFrom] /\
  derivations (trace (pullRun w f cmd args)) = [] /\
  statPaths (trace (pullRun w f cmd args)) = [] /\
  backendCalls (trace (pullRun w f cmd args)) = [].
Proof.
  intros Hc Hl Hr. rewrite (pullRun_bad_uri w f cmd args h pullFrom Hc Hl Hr).
  repeat split.
Qed.

Lemma dispatch_malformed w f cmd ctx h transport pullFrom pullTo err :
  transport = LibraryProtocol \/ transport = EmptyString ->
  library_NormalizeLibraryRef w pullFrom = inr err ->
  dispatch w f cmd ctx h transport pullFrom pullTo
  = ([NormalizeLibraryRef pullFrom],
     Fatal ("Malformed library reference: " ++ Error w err)).
Proof.
  intros Ht Hn. unfold dispatch, pullLibrary, bind, call, fatalf.
  replace ((transport =? LibraryProtocol) || (transport =? ""))%string
    with true
    by (destruct Ht as [-> | ->]; reflexivity).
  rewrite Hn. reflexivity.
Qed.

(** X8.  A library locator (named or defaulted) that does not normalize
    ends the run with "Malformed library reference" and the error, once the
    existence check is passed; the string normalized is the locator as
    typed, no client configuration is asked for and no backend is
    called. *)
Theorem malformed_library_reference w f cmd args h pullFrom transport err :
  resolves w f args h pullFrom transport ->
  mayWrite w f (destination w f args transport pullFrom) = true ->
  transport = LibraryProtocol \/ transport = EmptyString ->
  library_NormalizeLibraryRef w pullFrom = inr err ->
  outcome (pullRun w f cmd args)
  = Fatal ("Malformed library reference: " ++ Error w err) /\
  normalizations (trace (pullRun w f cmd args)) = [pullFrom] /\
  libraryURIs (trace (pullRun w f cmd args)) = [] /\
  backendCalls (trace (pullRun w f cmd args)) = [].
Proof.
  intros Hres Hmay Ht Hn.
  destruct (prologue_silent w f cmd args h pullFrom _ Hres)
    as (Hb & _ & _ & Hnz & Hl).
  rewrite (pullRun_resolved w f cmd args h pullFrom transport Hres), Hmay.
  rewrite (dispatch_malformed w f cmd _ h transport pullFrom _ err Ht Hn).
  rewrite !trace_pair, outcome_pair, normalizations_app, libraryURIs_app,
    backendCalls_app, Hb, Hnz, Hl.
  repeat split.
Qed.

Lemma dispatch_library_prepared w f cmd ctx h transport pullFrom pullTo r :
  transport = LibraryProtocol \/ transport = EmptyString ->
  library_NormalizeLibraryRef w pullFrom = inl r ->
  pullLibraryURI f = EmptyString \/ library.Host r = EmptyString ->
  let libraryURI :=
    if negb (pullLibraryURI f =? "") then pullLibraryURI f
    else if negb (library.Host r =? "") then
           ((if noHTTPS f then "http://" else "https://")
            ++ library.Host r)%string
         else EmptyString in
  (forall err,
      getLibraryClientConfig w libraryURI = inr err ->
      dispatch w f cmd ctx h transport pullFrom pullTo
      = ([NormalizeLibraryRef pullFrom; GetLibraryClientConfig libraryURI],
         Fatal ("Unable to get library client configuration: "
                ++ Error w err))) /\
  (forall lc err,
      getLibraryClientConfig w libraryURI = inl lc ->
      getKeyserverClientOpts w "" KeyserverVerifyOp = inr err ->
      dispatch w f cmd ctx h transport pullFrom pullTo
      = ([NormalizeLibraryRef pullFrom; GetLibraryClientConfig libraryURI;
          GetKeyserverClientOpts "" KeyserverVerifyOp],
         Fatal ("Unable to get keyserver client configuration: "
                ++ Error w err))).
Proof.
  intros Ht Hn Hno libraryURI.
  assert (Hc : negb (pullLibraryURI f =? "") && negb (library.Host r =? "")
               = false).
  { destruct Hno as [-> | ->]; simpl; [reflexivity|].
    apply andb_false_r. }
  unfold dispatch, pullLibrary.
  replace ((transport =? LibraryProtocol) || (transport =? ""))%string
    with true
    by (destruct Ht as [-> | ->]; reflexivity).
  unfold bind, call, ret, fatalf. rewrite Hn, Hc.
  subst libraryURI.
  destruct (negb (pullLibraryURI f =? "")), (negb (library.Host r =? "")),
    (noHTTPS f); cbv iota;
    (split;
     [intros err He; rewrite He; reflexivity
     |intros lc err Hl He; rewrite Hl, He; reflexivity]).
Qed.

(** X9.  On the library branch, after a reference that normalizes without
    conflict: if the library client configuration cannot be had the run
    ends with "Unable to get library client configuration" and the error,
    and if the keyserver client configuration (always asked for the empty
    URI and the verify operation) cannot be had, with "Unable to get
    keyserver client configuration" and the error; in both cases no backend
    is called. *)
Theorem library_configuration_failures w f cmd args h pullFrom transport r :
  resolves w f args h pullFrom transport ->
  mayWrite w f (destination w f args transport pullFrom) = true ->
  transport = LibraryProtocol \/ transport = EmptyString ->
  library_NormalizeLibraryRef w pullFrom = inl r ->
  pullLibraryURI f = EmptyString \/ library.Host r = EmptyString ->
  let libraryURI :=
    if negb (pullLibraryURI f =? "") then pullLibraryURI f
    else if negb (library.Host r =? "") then
           ((if noHTTPS f then "http://" else "https://")
            ++ library.Host r)%string
         else EmptyString in
  (forall err,
      getLibraryClientConfig w libraryURI = inr err ->
      outcome (pullRun w f cmd args)
      = Fatal ("Unable to get library client configuration: "
               ++ Error w err) /\
      backendCalls (trace (pullRun w f cmd args)) = []) /\
  (forall lc err,
      getLibraryClientConfig w libraryURI = inl lc ->
      getKeyserverClientOpts w "" KeyserverVerifyOp = inr err ->
      outcome (pullRun w f cmd args)
      = Fatal ("Unable to get keyserver client configuration: "
               ++ Error w err) /\
      backendCalls (trace (pullRun w f cmd args)) = []).
Proof.
  intros Hres Hmay Ht Hn Hno libraryURI.
  destruct (prologue_silent w f cmd args h pullFrom _ Hres) as (Hb & _).
  destruct (dispatch_library_prepared w f cmd (cmd_Context w cmd) h transport
              pullFrom (destination w f args transport pullFrom) r Ht Hn Hno)
    as [Hcfg Hkey].
  fold libraryURI in Hcfg, Hkey.
  rewrite (pullRun_resolved w f cmd args h pullFrom transport Hres), Hmay.
  split.
  - intros err He. rewrite (Hcfg err He).
    rewrite !trace_pair, outcome_pair, backendCalls_app, Hb. split; reflexivity.
  - intros lc err Hl He. rewrite (Hkey lc err Hl He).
    rewrite !trace_pair, outcome_pair, backendCalls_app, Hb. split; reflexivity.
Qed.

Lemma dispatch_credentials w f cmd ctx h transport pullFrom pullTo err :
  makeDockerCredentials w cmd = inr err ->
  (selects w transport = Some OrasBackend ->
   dispatch w f cmd ctx h transport pullFrom pullTo
   = ([MakeDockerCredentials cmd],
      Fatal ("Unable to make docker oci credentials: " ++ Error w err))) /\
  (selects w transport = Some OciBackend ->
   dispatch w f cmd ctx h transport pullFrom pullTo
   = ([OciIsSupported transport; MakeDockerCredentials cmd],
      Fatal ("While creating Docker credentials: " ++ Error w err))).
Proof.
  intros Hcred. unfold selects, dispatch, pullOras, pullOciRegistry,
    bind, call, fatalf.
  destruct ((transport =? LibraryProtocol) || (transport =? ""))%string;
    [split; discriminate|].
  destruct (transport =? ShubProtocol)%string; [split; discriminate|].
  destruct (transport =? OrasProtocol)%string.
  { rewrite Hcred. split; [reflexivity|discriminate]. }
  destruct ((transport =? HTTPProtocol) || (transport =? HTTPSProtocol))%string;
    [split; discriminate|].
  cbn [fst snd app].
  destruct (transport =? oci_IsSupported w transport)%string;
    [|split; discriminate].
  rewrite Hcred. split; [discriminate|reflexivity].
Qed.

(** X10.  When the docker credentials cannot be made, a pull over oras ends
    with "Unable to make docker oci credentials" and the error, a pull over
    an OCI transport with "While creating Docker credentials" and the
    error, and neither calls its backend. *)
Theorem credentials_failure w f cmd args h pullFrom transport err :
  resolves w f args h pullFrom transport ->
  mayWrite w f (destination w f args transport pullFrom) = true ->
  makeDockerCredentials w cmd = inr err ->
  (selects w transport = Some OrasBackend ->
   outcome (pullRun w f cmd args)
   = Fatal ("Unable to make docker oci credentials: " ++ Error w err) /\
   backendCalls (trace (pullRun w f cmd args)) = []) /\
  (selects w transport = Some OciBackend ->
   outcome (pullRun w f cmd args)
   = Fatal ("While creating Docker credentials: " ++ Error w err) /\
   backendCalls (trace (pullRun w f cmd args)) = []).
Proof.
  intros Hres Hmay Hcred.
  destruct (prologue_silent w f cmd args h pullFrom _ Hres) as (Hb & _).
  destruct (dispatch_credentials w f cmd (cmd_Context w cmd) h transport
              pullFrom (destination w f args transport pullFrom) err Hcred)
    as [Horas Hoci].
  rewrite (pullRun_resolved w f cmd args h pullFrom transport Hres), Hmay.
  split; intros Hsel;
    [rewrite (Horas Hsel)|rewrite (Hoci Hsel)];
    rewrite !trace_pair, outcome_pair, backendCalls_app, Hb;
    split; reflexivity.
Qed.

Lemma dispatch_arguments w f cmd ctx h transport pullFrom pullTo e :
  In e (backendCalls
          (trace (dispatch w f cmd ctx h transport pullFrom pullTo))) ->
  callContext e = Some ctx /\
  callCache e = Some h /\
  callTmpDir e = Some (tmpDir f) /\
  (callLocator e = Some pullFrom \/
   exists ref, callReference e = Some ref /\
               library_NormalizeLibraryRef w pullFrom = inl ref) /\
  (forall a, callAuth e = Some a -> makeDockerCredentials w cmd = inl a).
Proof.
  expose_dispatch.
  split_paths; intros Hin; simpl in Hin; try contradiction;
    destruct Hin as [<-|[]]; simpl;
    repeat split; eauto; try discriminate; congruence.
Qed.

(** X11.  Every backend call of a run carries the context of the command,
    the cache handle the provider returned, the temporary directory of the
    options, and the locator exactly as typed (the last argument, transport
    prefix included); the library backend gets the reference that
    [library.NormalizeLibraryRef] made of that locator instead, and the oras
    and OCI backends the credentials [makeDockerCredentials] returned. *)
Theorem backend_call_arguments w f cmd args pullFrom e :
  nth_error args (List.length args - 1) = Some pullFrom ->
  In e (backendCalls (trace (pullRun w f cmd args))) ->
  callContext e = Some (cmd_Context w cmd) /\
  callCache e = getCacheHandle w (disableCache f) /\
  callTmpDir e = Some (tmpDir f) /\
  (callLocator e = Some pullFrom \/
   exists ref, callReference e = Some ref /\
               library_NormalizeLibraryRef w pullFrom = inl ref) /\
  (forall a, callAuth e = Some a -> makeDockerCredentials w cmd = inl a).
Proof.
  intros Hlast Hin.
  destruct (pullRun_shape w f cmd args)
    as [[Hearly _] | (h & p & Hr & _ & Hrun)].
  - apply early_calls_silent in Hearly as (Hb & _).
    rewrite Hb in Hin. destruct Hin.
  - assert (pullFrom = p) by (eapply resolves_last; eauto). subst p.
    destruct (prologue_silent w f cmd args h pullFrom _ Hr) as (Hb & _).
    rewrite Hrun, trace_pair, backendCalls_app, Hb in Hin.
    destruct Hr as (Hc & _). rewrite Hc.
    exact (dispatch_arguments _ _ _ _ _ _ _ _ _ Hin).
Qed.

Lemma dispatch_library_options w f cmd ctx h transport pullFrom pullTo
      ctx' c p ref opts :
  In (LibraryPullToFile ctx' c p ref opts)
     (backendCalls
        (trace (dispatch w f cmd ctx h transport pullFrom pullTo))) ->
  library.Architecture opts = pullArch f /\
  library.Endpoint_ opts = currentRemoteEndpoint f /\
  library.RequireOciSif opts = pullOci f /\
  getKeyserverClientOpts w "" KeyserverVerifyOp
  = inl (library.KeyClientOpts opts) /\
  exists u,
    libraryURIs (trace (dispatch w f cmd ctx h transport pullFrom pullTo))
    = [u] /\
    getLibraryClientConfig w u = inl (library.LibraryConfig opts).
Proof.
  expose_dispatch.
  split_paths; intros Hin; simpl in Hin; try contradiction;
    destruct Hin as [Hin|[]]; try discriminate Hin;
    injection Hin as <- <- <- <- <-; simpl;
    repeat split; auto; (eexists; split; [reflexivity|assumption]).
Qed.

(** X12.  The options of a library pull are built from the options of the
    command: the architecture is [pullArch], the endpoint the configured
    remote, the OCI-SIF requirement [pullOci]; the keyserver options are
    those obtained for the empty URI and the verify operation, and the
    library configuration the one obtained for the single URI the run asked
    a client configuration for. *)
Theorem library_pull_options w f cmd args ctx c pullTo ref opts :
  In (LibraryPullToFile ctx c pullTo ref opts)
     (backendCalls (trace (pullRun w f cmd args))) ->
  library.Architecture opts = pullArch f /\
  library.Endpoint_ opts = currentRemoteEndpoint f /\
  library.RequireOciSif opts = pullOci f /\
  getKeyserverClientOpts w "" KeyserverVerifyOp
  = inl (library.KeyClientOpts opts) /\
  exists u,
    libraryURIs (trace (pullRun w f cmd args)) = [u] /\
    getLibraryClientConfig w u = inl (library.LibraryConfig opts).
Proof.
  intros Hin.
  destruct (pullRun_shape w f cmd args)
    as [[Hearly _] | (h & p & Hr & _ & Hrun)].
  - apply early_calls_silent in Hearly as (Hb & _).
    rewrite Hb in Hin. destruct Hin.
  - destruct (prologue_silent w f cmd args h p _ Hr)
      as (Hb & _ & _ & _ & Hl).
    rewrite Hrun, trace_pair, backendCalls_app, Hb in Hin.
    rewrite Hrun, trace_pair, libraryURIs_app, Hl.
    exact (dispatch_library_options _ _ _ _ _ _ _ _ _ _ _ _ _ Hin).
Qed.

Lemma dispatch_flags w f cmd ctx h transport pullFrom pullTo :
  (forall ctx' c p from opts,
      In (OciPullToFile ctx' c p from opts)
         (backendCalls
            (trace (dispatch w f cmd ctx h transport pullFrom pullTo))) ->
      oci.DockerHost opts = dockerHost f /\
      oci.NoHTTPS opts = noHTTPS f /\
      oci.NoCleanUp opts = noCleanUp f /\
      oci.OciSif opts = pullOci f) /\
  (forall ctx' c p from tmp nohttps,
      In (ShubPullToFile ctx' c p from tmp nohttps)
         (backendCalls
            (trace (dispatch w f cmd ctx h transport pullFrom pullTo))) ->
      nohttps = noHTTPS f).
Proof.
  expose_dispatch.
  split_paths; split; intros; simpl in *;
    repeat match goal with
           | H : False |- _ => destruct H
           | H : _ \/ False |- _ => destruct H as [H|[]]
           end;
    try discriminate;
    match goal with
    | H : _ = _ |- _ => injection H as <- <- <- <- <-; simpl; auto
    | H : _ = _ |- _ => injection H as <- <- <- <- <- <-; simpl; auto
    end.
Qed.

(** X13.  The options of an OCI pull carry the docker host, the no-HTTPS,
    the no-cleanup and the OCI-SIF options of the command, and a hub pull
    gets the no-HTTPS option. *)
Theorem options_reach_the_backends w f cmd args :
  (forall ctx c pullTo pullFrom opts,
      In (OciPullToFile ctx c pullTo pullFrom opts)
         (backendCalls (trace (pullRun w f cmd args))) ->
      oci.DockerHost opts = dockerHost f /\
      oci.NoHTTPS opts = noHTTPS f /\
      oci.NoCleanUp opts = noCleanUp f /\
      oci.OciSif opts = pullOci f) /\
  (forall ctx c pullTo pullFrom tmp nohttps,
      In (ShubPullToFile ctx c pullTo pullFrom tmp nohttps)
         (backendCalls (trace (pullRun w f cmd args))) ->
      nohttps = noHTTPS f).
Proof.
  destruct (pullRun_shape w f cmd args)
    as [[Hearly _] | (h & p & Hr & _ & Hrun)].
  - apply early_calls_silent in Hearly as (Hb & _).
    rewrite Hb. split; intros; contradiction.
  - destruct (prologue_silent w f cmd args h p _ Hr) as (Hb & _).
    rewrite Hrun, trace_pair, backendCalls_app, Hb.
    exact (dispatch_flags _ _ _ _ _ _ _ _).
Qed.

(** X14.  For a locator whose transport is neither [library] nor empty the
    [--library] option changes nothing: the run is the same for every value
    of it, the empty one included. *)
Theorem library_option_ignored_elsewhere w f cmd args pullFrom u :
  nth_error args (List.length args - 1) = Some pullFrom ->
  fst (uri_Split w pullFrom) <> LibraryProtocol ->
  fst (uri_Split w pullFrom) <> EmptyString ->
  pullRun w (withPullLibraryURI u f) cmd args = pullRun w f cmd args.
Proof.
  intros Hlast Hlib Hnone.
  apply String.eqb_neq in Hlib, Hnone.
  unfold pullRun, bind, call, ret, fatalf, index; simpl.
  destruct (getCacheHandle w (disableCache f)); [|reflexivity].
  rewrite Hlast. simpl.
  destruct (uri_Split w pullFrom) as [transport ref].
  simpl in Hlib, Hnone.
  destruct (ref =? ""); [reflexivity|].
  change (resolveDestination w (withPullLibraryURI u f) args transport
            pullFrom)
    with (resolveDestination w f args transport pullFrom).
  destruct (resolveDestination w f args transport pullFrom)
    as [tn [pullTo| |]]; try reflexivity.
  assert (Hd : forall ctx c,
             dispatch w (withPullLibraryURI u f) cmd ctx c transport pullFrom
               pullTo
             = dispatch w f cmd ctx c transport pullFrom pullTo).
  { intros ctx c. unfold dispatch. rewrite Hlib, Hnone. reflexivity. }
  destruct (IsNotExist (os_Stat w pullTo)), (forceOverwrite f); simpl;
    rewrite ?Hd; reflexivity.
Qed.

(** X15.  When the destination does not exist the overwrite option changes
    nothing: the run is the same with and without it. *)
Theorem overwrite_irrelevant_when_absent w f cmd args h pullFrom transport b :
  resolves w f args h pullFrom transport ->
  IsNotExist (os_Stat w (destination w f args transport pullFrom)) = true ->
  pullRun w (withForceOverwrite b f) cmd args = pullRun w f cmd args.
Proof.
  intros Hres Habsent.
  assert (Hres' : resolves w (withForceOverwrite b f) args h pullFrom
                    transport) by exact Hres.
  rewrite (pullRun_resolved w (withForceOverwrite b f) cmd args h pullFrom
             transport Hres').
  rewrite (pullRun_resolved w f cmd args h pullFrom transport Hres).
  change (destination w (withForceOverwrite b f) args transport pullFrom)
    with (destination w f args transport pullFrom).
  unfold mayWrite. rewrite Habsent. cbn [orb].
  reflexivity.
Qed.

(** X16.  In a run that gets into the switch, [library.NormalizeLibraryRef]
    is called exactly once for the [library] transport and for no
    transport, and never for any other; what it is given is the locator as
    typed, also when the name was derived from the locator with
    [library://] put in front. *)
Theorem normalizes_locator_as_typed w f cmd args h pullFrom transport :
  resolves w f args h pullFrom transport ->
  mayWrite w f (destination w f args transport pullFrom) = true ->
  normalizations (trace (pullRun w f cmd args))
  = if (transport =? LibraryProtocol) || (transport =? "") then [pullFrom]
    else [].
Proof.
  intros Hres Hmay.
  destruct (prologue_silent w f cmd args h pullFrom _ Hres)
    as (_ & _ & _ & Hn & _).
  rewrite (pullRun_resolved w f cmd args h pullFrom transport Hres), Hmay.
  rewrite trace_pair, normalizations_app, Hn.
  apply dispatch_normalizations.
Qed.

Lemma derivations_app t1 t2 :
  derivations (t1 ++ t2) = derivations t1 ++ derivations t2.
Proof.
  induction t1 as [|e t1 IH]; simpl; [reflexivity|].
  destruct e; simpl; rewrite IH; reflexivity.
Qed.

Lemma dispatch_derivations w f cmd ctx h transport pullFrom pullTo :
  derivations (trace (dispatch w f cmd ctx h transport pullFrom pullTo)) = [].
Proof. expose_dispatch. split_paths; reflexivity. Qed.

Lemma resolveDestination_derivations w f args transport pullFrom :
  args <> [] ->
  derivations (trace (resolveDestination w f args transport pullFrom))
  = if (pullImageName f =? "") && Nat.eqb (List.length args) 1 then
      [if transport =? "" then ("library://" ++ pullFrom)%string
       else pullFrom]
    else [].
Proof.
  intros Hargs. destruct args as [|a0 args']; [congruence|].
  unfold resolveDestination, index, bind, call, ret, trace.
  cbn [nth_error List.length Nat.eqb fst snd app].
  destruct (pullImageName f =? ""), (pullDir f =? ""),
    (Nat.eqb (List.length args') 0), (transport =? "")%string; reflexivity.
Qed.

(** X17.  In a run that gets to resolve its destination (the cache handle
    is obtained and the reference body is not empty), [uri.GetName] is
    called only when the name has to be derived, that is with no name
    override and a single positional argument, and then once: on the
    locator with [library://] in front when it has no transport, on the
    locator itself when it has one.  A name override or an explicit output
    file keeps the locator from being parsed for a name. *)
Theorem name_derived_only_when_needed w f cmd args h pullFrom transport :
  resolves w f args h pullFrom transport ->
  derivations (trace (pullRun w f cmd args))
  = if (pullImageName f =? "") && Nat.eqb (List.length args) 1 then
      [if transport =? "" then ("library://" ++ pullFrom)%string
       else pullFrom]
    else [].
Proof.
  intros Hres.
  pose proof (resolveDestination_derivations w f args transport pullFrom
                (resolves_args w f args h pullFrom transport Hres)) as Hd.
  rewrite (pullRun_resolved w f cmd args h pullFrom transport Hres).
  assert (Hp : derivations (prologue w f cmd args pullFrom transport)
               = derivations
                   (trace (resolveDestination w f args transport pullFrom))).
  { unfold prologue. cbn [app derivations].
    rewrite derivations_app. cbn [derivations]. apply app_nil_r. }
  destruct (mayWrite w f _); rewrite trace_pair;
    rewrite ?derivations_app, ?dispatch_derivations, ?app_nil_r, Hp;
    exact Hd.
Qed.

End Properties.


(** * The claims on concrete command lines *)

Section Runs.

Import Sample.

Local Open Scope list_scope.

Ltac holds :=
  repeat split; try reflexivity;
  try (let H := fresh in intro H; vm_compute in H; discriminate H).

(** [pull --name alpine.sif docker://alpine:3.18]: the OCI backend writes
    [alpine.sif]. *)
Example docker_named :
  pullRun quiet (withName "alpine.sif" defaults) tt
    ["docker://alpine:3.18"%string]
  = ([CmdContext tt; GetCacheHandle false; UriSplit "docker://alpine:3.18";
      OsStat "alpine.sif"; OciIsSupported "docker"; MakeDockerCredentials tt;
      OciPullToFile tt 7 "alpine.sif" "docker://alpine:3.18"
        {| oci.TmpDir := "";
           oci.OciAuth := "anonymous"%string;
           oci.DockerHost := "";
           oci.NoHTTPS := false;
           oci.NoCleanUp := false;
           oci.OciSif := false |}],
     Return tt).
Proof. reflexivity. Qed.

(** [pull --force shub://user/repo] over a file that is there: the probe,
    then the hub backend. *)
Example shub_overwrite :
  pullRun (env (Some 7) allTaken None) (withForce true defaults) tt
    ["shub://user/repo"%string]
  = ([CmdContext tt; GetCacheHandle false; UriSplit "shub://user/repo";
      UriGetName "shub://user/repo"; OsStat "repo_latest.sif";
      ShubPullToFile tt 7 "repo_latest.sif" "shub://user/repo" "" false],
     Return tt).
Proof. reflexivity. Qed.

(** No cache handle: the run ends before the locator is looked at. *)
Example no_cache_handle :
  pullRun (env None emptyDir None) defaults tt ["alpine"%string]
  = ([CmdContext tt; GetCacheHandle false],
     Fatal "Failed to create an image cache handle").
Proof. reflexivity. Qed.

(** An empty locator has an empty reference body. *)
Example bad_uri :
  pullRun quiet defaults tt [EmptyString]
  = ([CmdContext tt; GetCacheHandle false; UriSplit EmptyString],
     Fatal "Bad URI ").
Proof. reflexivity. Qed.

(** C1 on [pull --dir images alpine.sif library://alpine]: the first
    argument names the file. *)
Lemma C1_filename_priority_witness :
  RangeArgs 1 2 named = true /\
  resolves quiet (withDir "images" defaults) named 7
    "library://alpine" "library" /\
  statPaths (trace (pullRun quiet (withDir "images" defaults) tt named))
  = ["images/alpine.sif"%string].
Proof.
  assert (Hres : resolves quiet (withDir "images" defaults) named 7
                   "library://alpine" "library") by holds.
  split; [reflexivity|]. split; [exact Hres|].
  pose proof (C1_filename_priority quiet (withDir "images" defaults) tt
                named 7 "library://alpine" "library" eq_refl Hres) as H.
  cbv zeta in H. destruct H as (_ & _ & H & _). exact H.
Defined.

(** C1 as the document words it fails on
    [pull alpine.sif library://alpine]: the file is named after the first
    argument, not after the second. *)
Lemma C1_counterexample :
  statPaths (trace (pullRun quiet defaults tt named))
  = ["alpine.sif"%string] /\
  documentedDestination quiet defaults named = "library://alpine"%string /\
  statPaths (trace (pullRun quiet defaults tt named))
  <> [documentedDestination quiet defaults named].
Proof. holds. Qed.

(** C2 on a host-bearing reference with [--library https://other], in an
    empty directory: the conflict diagnostic. *)
Lemma C2_conflict_rejected_witness :
  pullLibraryURI overridden <> EmptyString /\
  library_NormalizeLibraryRef quiet hosted = inl hostedRef /\
  library.Host hostedRef <> EmptyString /\
  outcome (pullRun quiet overridden tt [hosted]) = Fatal conflictDiagnostic /\
  backendCalls (trace (pullRun quiet overridden tt [hosted])) = [].
Proof.
  assert (Hu : pullLibraryURI overridden <> EmptyString) by holds.
  assert (Hh : library.Host hostedRef <> EmptyString) by holds.
  split; [exact Hu|]. split; [reflexivity|]. split; [exact Hh|].
  destruct (C2_conflict_rejected quiet overridden tt [hosted] hosted
              hostedRef eq_refl (or_introl eq_refl) Hu eq_refl Hh)
    as (_ & Hb & _ & Hc).
  split; [|exact Hb].
  apply (Hc 7); holds.
Defined.

(** C2 as stated fails when the destination is already there: the same
    command line ends with the diagnostic of the existence check, which
    comes first in the code, and not with the one of the conflict. *)
Lemma C2_counterexample :
  pullLibraryURI overridden <> EmptyString /\
  library_NormalizeLibraryRef (env (Some 7) allTaken None) hosted
  = inl hostedRef /\
  library.Host hostedRef <> EmptyString /\
  outcome (pullRun (env (Some 7) allTaken None) overridden tt [hosted])
  = Fatal (alreadyExists "img_latest.sif") /\
  outcome (pullRun (env (Some 7) allTaken None) overridden tt [hosted])
  <> Fatal conflictDiagnostic.
Proof. holds. Qed.

(** C3 on [pull shub://user/repo] with the destination in place and no
    overwrite. *)
Lemma C3_existing_destination_witness :
  resolves (env (Some 7) allTaken None) defaults ["shub://user/repo"%string]
    7 "shub://user/repo" "shub" /\
  os_Stat (env (Some 7) allTaken None) "repo_latest.sif" = None /\
  statPaths (trace (pullRun (env (Some 7) allTaken None) defaults tt
                      ["shub://user/repo"%string]))
  = ["repo_latest.sif"%string] /\
  outcome (pullRun (env (Some 7) allTaken None) defaults tt
             ["shub://user/repo"%string])
  = Fatal (alreadyExists "repo_latest.sif") /\
  backendCalls (trace (pullRun (env (Some 7) allTaken None) defaults tt
                         ["shub://user/repo"%string])) = [].
Proof.
  assert (Hres : resolves (env (Some 7) allTaken None) defaults
                   ["shub://user/repo"%string] 7 "shub://user/repo" "shub")
    by holds.
  split; [exact Hres|]. split; [reflexivity|].
  destruct (C3_existing_destination (env (Some 7) allTaken None) defaults tt
              ["shub://user/repo"%string] 7 "shub://user/repo" "shub"
              Hres) as (Honce & Hexists).
  destruct (Hexists eq_refl) as (Hno & _).
  destruct (Hno eq_refl) as (Hrun & _ & _ & Hb).
  split; [exact Honce|]. split; [rewrite Hrun; reflexivity|exact Hb].
Defined.

(** C4 on [pull alpine] when the library backend answers with the
    unsigned sentinel: a warning, and the run returns. *)
Lemma C4_backend_result_reported_witness :
  In alpinePull
     (backendCalls
        (trace (pullRun (env (Some 7) emptyDir (Some ErrLibraryPullUnsigned))
                  defaults tt ["alpine"%string]))) /\
  outcome (pullRun (env (Some 7) emptyDir (Some ErrLibraryPullUnsigned))
             defaults tt ["alpine"%string]) = Return tt /\
  warnings (trace (pullRun (env (Some 7) emptyDir
                              (Some ErrLibraryPullUnsigned))
                     defaults tt ["alpine"%string]))
  = ["Skipping container verification"%string].
Proof.
  assert (Hin : In alpinePull
                  (backendCalls
                     (trace (pullRun (env (Some 7) emptyDir
                                        (Some ErrLibraryPullUnsigned))
                               defaults tt ["alpine"%string]))))
    by (left; reflexivity).
  split; [exact Hin|].
  exact (C4_backend_result_reported
           (env (Some 7) emptyDir (Some ErrLibraryPullUnsigned))
           defaults tt ["alpine"%string] alpinePull Hin).
Defined.

(** C4 as stated fails on the oras transport: the message of a hard error
    says "oci registry" and does not contain the transport name. *)
Lemma C4_counterexample :
  fst (uri_Split (env (Some 7) emptyDir (Some (errorString "boom")))
         "oras://reg/img") = OrasProtocol /\
  outcome (pullRun (env (Some 7) emptyDir (Some (errorString "boom")))
             defaults tt ["oras://reg/img"%string])
  = Fatal "While pulling image from oci registry: boom" /\
  contains OrasProtocol "While pulling image from oci registry: boom"
  = false.
Proof. holds. Qed.

(** C5 on [pull alpine]: the calls are in the order of the code, and
    exactly one backend is called, after one acquisition of the cache
    handle. *)
Lemma C5_order_of_steps_witness :
  resolves quiet defaults ["alpine"%string] 7 "alpine" "" /\
  mayWrite quiet defaults "alpine_latest.sif" = true /\
  prepared quiet defaults tt "" "alpine" = true /\
  backendCalls (trace (pullRun quiet defaults tt ["alpine"%string])) <> [] /\
  ascending (ranks (trace (pullRun quiet defaults tt ["alpine"%string])))
  = true /\
  occurrences AcquireCache
    (trace (pullRun quiet defaults tt ["alpine"%string])) = 1 /\
  List.length
    (backendCalls (trace (pullRun quiet defaults tt ["alpine"%string]))) = 1.
Proof.
  assert (Hres : resolves quiet defaults ["alpine"%string] 7 "alpine" "")
    by holds.
  assert (Hb : backendCalls
                 (trace (pullRun quiet defaults tt ["alpine"%string])) <> [])
    by holds.
  split; [exact Hres|]. split; [reflexivity|]. split; [reflexivity|].
  split; [exact Hb|].
  destruct (C5_order_of_steps quiet defaults tt ["alpine"%string])
    as (Ha & _ & Hc & Hone).
  split; [exact Ha|]. split.
  - destruct (Hc Hb) as (H1 & _). exact H1.
  - destruct (Hone 7 "alpine"%string ""%string Hres eq_refl) as (Hlen & _).
    exact Hlen.
Defined.

(** C5 as stated fails on [pull alpine]: in the documented order the cache
    handle comes after the resolution of the destination and the
    normalization before it; the run acquires the handle first and
    normalizes after the probe.  And not every invocation gets to a
    backend: [pull ftp://host/file] ends in the default case without a
    backend call. *)
Lemma C5_counterexample :
  documentedRanks (trace (pullRun quiet defaults tt ["alpine"%string]))
  = [3; 0; 2; 2; 1; 4] /\
  ascending
    (documentedRanks (trace (pullRun quiet defaults tt ["alpine"%string])))
  = false /\
  backendCalls (trace (pullRun quiet defaults tt ["ftp://host/file"%string]))
  = [].
Proof. holds. Qed.

(** C6 on a host-bearing reference without override. *)
Lemma C6_library_endpoint_witness :
  resolves quiet defaults [hosted] 7 hosted "library" /\
  mayWrite quiet defaults "img_latest.sif" = true /\
  library_NormalizeLibraryRef quiet hosted = inl hostedRef /\
  pullLibraryURI defaults = EmptyString /\
  libraryURIs (trace (pullRun quiet defaults tt [hosted]))
  = ["https://myhost"%string].
Proof.
  assert (Hres : resolves quiet defaults [hosted] 7 hosted "library")
    by holds.
  split; [exact Hres|]. repeat (split; [reflexivity|]).
  destruct (C6_library_endpoint quiet defaults tt [hosted] 7 hosted
              "library" hostedRef Hres eq_refl (or_introl eq_refl) eq_refl
              (or_introl eq_refl)) as (Hu & _).
  exact Hu.
Defined.

(** C7 on [pull ftp://host/file] in an empty directory. *)
Lemma C7_unsupported_transport_witness :
  unsupported quiet "ftp" /\
  outcome (pullRun quiet defaults tt ["ftp://host/file"%string])
  = Fatal "Unsupported transport type: ftp".
Proof.
  assert (Hun : unsupported quiet
                  (fst (uri_Split quiet "ftp://host/file"))) by holds.
  split; [exact Hun|].
  destruct (C7_unsupported_transport quiet defaults tt
              ["ftp://host/file"%string] "ftp://host/file" eq_refl Hun)
    as (_ & _ & Hmsg & _).
  apply (Hmsg 7); holds.
Defined.

(** C7 as stated fails when the destination is already there: the message
    is the one of the existence check and does not name the transport. *)
Lemma C7_counterexample :
  unsupported (env (Some 7) allTaken None) "ftp" /\
  fst (uri_Split (env (Some 7) allTaken None) "ftp://host/file")
  = "ftp"%string /\
  outcome (pullRun (env (Some 7) allTaken None) defaults tt
             ["ftp://host/file"%string])
  = Fatal (alreadyExists "file_latest.sif") /\
  contains "ftp" (alreadyExists "file_latest.sif") = false.
Proof. holds. Qed.

(** C8 on [pull alpine]. *)
Lemma C8_derived_name_witness :
  pullImageName defaults = EmptyString /\
  resolves quiet defaults ["alpine"%string] 7 "alpine" "" /\
  statPaths (trace (pullRun quiet defaults tt ["alpine"%string]))
  = ["alpine_latest.sif"%string] /\
  destination quiet defaults ["alpine"%string] "" "alpine"
  = destination quiet defaults ["library://alpine"%string] "library"
      "library://alpine".
Proof.
  assert (Hres : resolves quiet defaults ["alpine"%string] 7 "alpine" "")
    by holds.
  split; [reflexivity|]. split; [exact Hres|].
  pose proof (C8_derived_name quiet defaults tt 7 "alpine" "" eq_refl Hres)
    as H.
  cbv zeta in H. destruct H as (Hs & Hd & _).
  split; [exact Hs|].
  destruct (Hd eq_refl) as (_ & Hsame). apply Hsame. holds.
Defined.

(** C9 on [pull shub://user/repo] when the probe is refused. *)
Lemma C9_probe_error_as_existing_witness :
  resolves (env (Some 7) denied None) defaults ["shub://user/repo"%string]
    7 "shub://user/repo" "shub" /\
  os_Stat (env (Some 7) denied None) "repo_latest.sif" = Some ErrPermission /\
  ErrPermission <> ErrNotExist /\
  outcome (pullRun (env (Some 7) denied None) defaults tt
             ["shub://user/repo"%string])
  = Fatal (alreadyExists "repo_latest.sif").
Proof.
  assert (Hres : resolves (env (Some 7) denied None) defaults
                   ["shub://user/repo"%string] 7 "shub://user/repo" "shub")
    by holds.
  assert (Hne : ErrPermission <> ErrNotExist) by holds.
  split; [exact Hres|]. split; [reflexivity|]. split; [exact Hne|].
  destruct (C9_probe_error_as_existing (env (Some 7) denied None) defaults
              tt ["shub://user/repo"%string] 7 "shub://user/repo" "shub"
              ErrPermission Hres eq_refl Hne) as (_ & _ & Hno & _).
  destruct (Hno eq_refl) as (Hout & _). exact Hout.
Defined.

(** C10 on [pull -U alpine] when the library backend answers with the
    unsigned sentinel: the warning is printed all the same. *)
Lemma C10_unsigned_flag_unread_witness :
  In alpinePull
     (backendCalls
        (trace (pullRun (env (Some 7) emptyDir (Some ErrLibraryPullUnsigned))
                  (withUnauthenticatedPull true defaults) tt
                  ["alpine"%string]))) /\
  warnings
    (trace (pullRun (env (Some 7) emptyDir (Some ErrLibraryPullUnsigned))
              (withUnauthenticatedPull true defaults) tt
              ["alpine"%string]))
  = ["Skipping container verification"%string].
Proof.
  assert (Hin : In alpinePull
                  (backendCalls
                     (trace (pullRun (env (Some 7) emptyDir
                                        (Some ErrLibraryPullUnsigned))
                               (withUnauthenticatedPull true defaults) tt
                               ["alpine"%string]))))
    by (left; reflexivity).
  split; [exact Hin|].
  destruct (C10_unsigned_flag_unread
              (env (Some 7) emptyDir (Some ErrLibraryPullUnsigned))
              defaults tt ["alpine"%string] true) as (_ & Hsoft).
  destruct (Hsoft _ _ _ _ _ Hin eq_refl) as (_ & Hw). exact Hw.
Defined.

(** X1 on [pull alpine]. *)
Lemma pullRun_panics_only_without_args_witness :
  RangeArgs 1 2 ["alpine"%string] = true /\
  outcome (pullRun quiet defaults tt ["alpine"%string]) <> Panic.
Proof.
  split; [reflexivity|].
  destruct (pullRun_panics_only_without_args quiet defaults tt
              ["alpine"%string]) as (_ & H).
  exact (H eq_refl).
Defined.

(** X2 on [pull shub://user/repo]. *)
Lemma backend_follows_transport_witness :
  In repoPull
     (backendCalls
        (trace (pullRun quiet defaults tt ["shub://user/repo"%string]))) /\
  kindOf repoPull = Some ShubBackend.
Proof.
  assert (Hin : In repoPull
                  (backendCalls
                     (trace (pullRun quiet defaults tt
                               ["shub://user/repo"%string]))))
    by (left; reflexivity).
  split; [exact Hin|].
  exact (backend_follows_transport quiet defaults tt
           ["shub://user/repo"%string] "shub://user/repo" repoPull
           eq_refl Hin).
Defined.

(** X3 on [pull docker://alpine]. *)
Lemma literal_cases_come_first_witness :
  In "docker"%string
     (supportQueries
        (trace (pullRun quiet defaults tt ["docker://alpine"%string]))) /\
  isLiteralTransport "docker" = false.
Proof.
  assert (Hin : In "docker"%string
                  (supportQueries
                     (trace (pullRun quiet defaults tt
                               ["docker://alpine"%string]))))
    by (left; reflexivity).
  split; [exact Hin|].
  destruct (literal_cases_come_first quiet defaults tt
              ["docker://alpine"%string]) as (_ & H).
  destruct (H "docker"%string Hin) as (_ & _ & Hlit). exact Hlit.
Defined.

(** X4 on [pull alpine]. *)
Lemma returns_after_one_backend_call_witness :
  outcome (pullRun quiet defaults tt ["alpine"%string]) = Return tt /\
  exists e,
    backendCalls (trace (pullRun quiet defaults tt ["alpine"%string])) = [e] /\
    (backendResult quiet e = Some None \/
     backendResult quiet e = Some (Some ErrLibraryPullUnsigned) /\
     kindOf e = Some LibraryBackend).
Proof.
  split; [reflexivity|].
  exact (returns_after_one_backend_call quiet defaults tt ["alpine"%string]
           eq_refl).
Defined.

(** X6 on [pull alpine] without a cache handle. *)
Lemma no_cache_handle_stops_first_witness :
  getCacheHandle (env None emptyDir None) (disableCache defaults) = None /\
  outcome (pullRun (env None emptyDir None) defaults tt ["alpine"%string])
  = Fatal "Failed to create an image cache handle".
Proof.
  split; [reflexivity|].
  destruct (no_cache_handle_stops_first (env None emptyDir None) defaults tt
              ["alpine"%string] eq_refl) as (H & _).
  exact H.
Defined.

(** X7 on the empty locator. *)
Lemma empty_reference_refused_witness :
  snd (uri_Split quiet EmptyString) = EmptyString /\
  outcome (pullRun quiet defaults tt [EmptyString]) = Fatal "Bad URI " /\
  statPaths (trace (pullRun quiet defaults tt [EmptyString])) = [].
Proof.
  split; [reflexivity|].
  destruct (empty_reference_refused quiet defaults tt [EmptyString] 7
              EmptyString eq_refl eq_refl eq_refl)
    as (H1 & _ & _ & H2 & _).
  split; [exact H1|exact H2].
Defined.

(** X8 on [pull library://]. *)
Lemma malformed_library_reference_witness :
  resolves quiet defaults ["library://"%string] 7 "library://" "library" /\
  library_NormalizeLibraryRef quiet "library://"
  = inr (errorString "missing path") /\
  outcome (pullRun quiet defaults tt ["library://"%string])
  = Fatal "Malformed library reference: missing path".
Proof.
  assert (Hres : resolves quiet defaults ["library://"%string] 7
                   "library://" "library") by holds.
  split; [exact Hres|]. split; [reflexivity|].
  destruct (malformed_library_reference quiet defaults tt
              ["library://"%string] 7 "library://" "library"
              (errorString "missing path") Hres eq_refl
              (or_introl eq_refl) eq_refl) as (H & _).
  exact H.
Defined.

(** X9 on [pull alpine] without a remote. *)
Lemma library_configuration_failures_witness :
  resolves noRemote defaults ["alpine"%string] 7 "alpine" "" /\
  getLibraryClientConfig noRemote "" = inr (errorString "no remote") /\
  outcome (pullRun noRemote defaults tt ["alpine"%string])
  = Fatal "Unable to get library client configuration: no remote".
Proof.
  assert (Hres : resolves noRemote defaults ["alpine"%string] 7 "alpine" "")
    by holds.
  split; [exact Hres|]. split; [reflexivity|].
  pose proof (library_configuration_failures noRemote defaults tt
                ["alpine"%string] 7 "alpine" ""
                (library.mkRef "" "alpine" ["latest"%string]) Hres eq_refl
                (or_intror eq_refl) eq_refl (or_introl eq_refl)) as H.
  cbv zeta in H. destruct H as (Hcfg & _).
  destruct (Hcfg (errorString "no remote") eq_refl) as (Hout & _).
  exact Hout.
Defined.

(** X10 on [pull oras://reg/img] without credentials. *)
Lemma credentials_failure_witness :
  resolves noCredentials defaults ["oras://reg/img"%string] 7
    "oras://reg/img" "oras" /\
  makeDockerCredentials noCredentials tt = inr (errorString "bad login") /\
  selects noCredentials "oras" = Some OrasBackend /\
  outcome (pullRun noCredentials defaults tt ["oras://reg/img"%string])
  = Fatal "Unable to make docker oci credentials: bad login".
Proof.
  assert (Hres : resolves noCredentials defaults ["oras://reg/img"%string] 7
                   "oras://reg/img" "oras") by holds.
  split; [exact Hres|]. split; [reflexivity|]. split; [reflexivity|].
  destruct (credentials_failure noCredentials defaults tt
              ["oras://reg/img"%string] 7 "oras://reg/img" "oras"
              (errorString "bad login") Hres eq_refl eq_refl) as (Horas & _).
  destruct (Horas eq_refl) as (Hout & _). exact Hout.
Defined.

(** X11 on [pull shub://user/repo]. *)
Lemma backend_call_arguments_witness :
  In repoPull
     (backendCalls
        (trace (pullRun quiet defaults tt ["shub://user/repo"%string]))) /\
  callLocator repoPull = Some "shub://user/repo"%string /\
  callCache repoPull = getCacheHandle quiet (disableCache defaults).
Proof.
  assert (Hin : In repoPull
                  (backendCalls
                     (trace (pullRun quiet defaults tt
                               ["shub://user/repo"%string]))))
    by (left; reflexivity).
  split; [exact Hin|].
  destruct (backend_call_arguments quiet defaults tt
              ["shub://user/repo"%string] "shub://user/repo" repoPull
              eq_refl Hin) as (_ & Hc & _).
  split; [reflexivity|exact Hc].
Defined.

(** X12 on [pull alpine]. *)
Lemma library_pull_options_witness :
  In alpinePull
     (backendCalls (trace (pullRun quiet defaults tt ["alpine"%string]))) /\
  pullArch defaults = "amd64"%string /\
  exists u,
    libraryURIs (trace (pullRun quiet defaults tt ["alpine"%string])) = [u] /\
    getLibraryClientConfig quiet u = inl EmptyString.
Proof.
  assert (Hin : In alpinePull
                  (backendCalls
                     (trace (pullRun quiet defaults tt ["alpine"%string]))))
    by (left; reflexivity).
  split; [exact Hin|].
  destruct (library_pull_options quiet defaults tt ["alpine"%string] _ _ _ _ _
              Hin) as (Ha & _ & _ & _ & Hu).
  split; [symmetry; exact Ha|exact Hu].
Defined.

(** X13 on [pull docker://alpine]. *)
Lemma options_reach_the_backends_witness :
  In dockerPull
     (backendCalls
        (trace (pullRun quiet defaults tt ["docker://alpine"%string]))) /\
  noHTTPS defaults = false /\ pullOci defaults = false.
Proof.
  assert (Hin : In dockerPull
                  (backendCalls
                     (trace (pullRun quiet defaults tt
                               ["docker://alpine"%string]))))
    by (left; reflexivity).
  split; [exact Hin|].
  destruct (options_reach_the_backends quiet defaults tt
              ["docker://alpine"%string]) as (Hoci & _).
  destruct (Hoci _ _ _ _ _ Hin) as (_ & Hn & _ & Hs).
  split; [symmetry; exact Hn|symmetry; exact Hs].
Defined.

(** X14 on [pull --library https://other shub://user/repo]. *)
Lemma library_option_ignored_elsewhere_witness :
  fst (uri_Split quiet "shub://user/repo") = "shub"%string /\
  pullRun quiet (withPullLibraryURI "https://other" defaults) tt
    ["shub://user/repo"%string]
  = pullRun quiet defaults tt ["shub://user/repo"%string].
Proof.
  split; [reflexivity|].
  apply (library_option_ignored_elsewhere quiet defaults tt
           ["shub://user/repo"%string] "shub://user/repo" "https://other");
    holds.
Defined.

(** X15 on [pull --force alpine] in an empty directory. *)
Lemma overwrite_irrelevant_when_absent_witness :
  resolves quiet defaults ["alpine"%string] 7 "alpine" "" /\
  IsNotExist (os_Stat quiet "alpine_latest.sif") = true /\
  pullRun quiet (withForceOverwrite true defaults) tt ["alpine"%string]
  = pullRun quiet defaults tt ["alpine"%string].
Proof.
  assert (Hres : resolves quiet defaults ["alpine"%string] 7 "alpine" "")
    by holds.
  split; [exact Hres|]. split; [reflexivity|].
  exact (overwrite_irrelevant_when_absent quiet defaults tt ["alpine"%string]
           7 "alpine" "" true Hres eq_refl).
Defined.

(** X16 on [pull alpine]: the name comes from [library://alpine], the
    reference from [alpine]. *)
Lemma normalizes_locator_as_typed_witness :
  resolves quiet defaults ["alpine"%string] 7 "alpine" "" /\
  mayWrite quiet defaults "alpine_latest.sif" = true /\
  normalizations (trace (pullRun quiet defaults tt ["alpine"%string]))
  = ["alpine"%string].
Proof.
  assert (Hres : resolves quiet defaults ["alpine"%string] 7 "alpine" "")
    by holds.
  split; [exact Hres|]. split; [reflexivity|].
  exact (normalizes_locator_as_typed quiet defaults tt ["alpine"%string]
           7 "alpine" "" Hres eq_refl).
Defined.

(** X17 on [pull alpine]. *)
Lemma name_derived_only_when_needed_witness :
  resolves quiet defaults ["alpine"%string] 7 "alpine" "" /\
  derivations (trace (pullRun quiet defaults tt ["alpine"%string]))
  = ["library://alpine"%string].
Proof.
  assert (Hres : resolves quiet defaults ["alpine"%string] 7 "alpine" "")
    by holds.
  split; [exact Hres|].
  exact (name_derived_only_when_needed quiet defaults tt ["alpine"%string]
           7 "alpine" "" Hres).
Defined.

End Runs.
